(** * Parkinson's detection pipeline (main.py): a shallow embedding

    The script loads a table, separates features from the label column,
    rescales the features, splits the rows at random, fits a boosted
    classifier, evaluates it and writes one result row per run.

    The numerical libraries the script calls (pandas, scikit-learn, numpy,
    XGBoost) are not part of the repository.  Each call is modelled here by
    an executable definition of what that call computes, named after the
    library function; the classifier itself, the clock and the random
    source are interfaces.  Floating-point numbers are idealised as exact
    rationals ([Q]). *)

From Stdlib Require Import String Ascii DecimalString.
From Stdlib Require Import ZArith QArith Qround Qabs Bool Arith Lia Lqa.
From Stdlib Require Import List Permutation.
Import ListNotations.

Local Open Scope string_scope.
Local Open Scope list_scope.

(** ** Exceptions and the result of a computation *)

Inductive Exn : Type :=
| SystemExit (code : Z)
| FileNotFoundError (path : string)
| ParserError (path : string)
| KeyError (key : string)
| AttributeError (attr : string)
| ValueError (msg : string).

Inductive Outcome (A : Type) : Type :=
| Ok (a : A)
| Raise (e : Exn).
Arguments Ok {A} a.
Arguments Raise {A} e.

(** ** pandas: the dataset table *)

Module Pandas.

(** A cell of an object array: text, integer or float. *)
Inductive Cell : Type :=
| CStr (s : string)
| CInt (z : Z)
| CFloat (q : Q).

(** A column has one dtype. *)
Inductive Column : Type :=
| ColObj (l : list string)
| ColInt (l : list Z)
| ColFloat (l : list Q).

(** A table: the length of its index and its named columns, in file
    order. *)
Record DataFrame : Type := {
  df_len : nat;
  df_cols : list (string * Column)
}.

(** numpy arrays as the script meets them: a typed vector, a 2-D object
    array (rows of cells), a 2-D float array (rows of numbers). *)
Inductive NDArray : Type :=
| Arr1 (c : Column)
| ArrObj2 (m : list (list Cell))
| ArrF2 (m : list (list Q)).

Definition col_len (c : Column) : nat :=
  match c with
  | ColObj l => length l
  | ColInt l => length l
  | ColFloat l => length l
  end.

Definition cell_at (c : Column) (i : nat) : Cell :=
  match c with
  | ColObj l => CStr (nth i l "")
  | ColInt l => CInt (nth i l 0%Z)
  | ColFloat l => CFloat (nth i l 0%Q)
  end.

(** [df.columns] *)
Definition columns (df : DataFrame) : list string :=
  map fst (df_cols df).

(** [df.shape] *)
Definition shape (df : DataFrame) : nat * nat :=
  (df_len df, length (df_cols df)).

(** [df.columns != name]: the element-wise boolean mask. *)
Definition columns_ne (df : DataFrame) (name : string) : list bool :=
  map (fun nm => negb (String.eqb nm name)) (columns df).

Fixpoint select_mask {A : Type} (mask : list bool) (l : list A) : list A :=
  match mask, l with
  | b :: mask', a :: l' =>
      if b then a :: select_mask mask' l' else select_mask mask' l'
  | _, _ => []
  end.

(** [df.loc[:, mask]] with a boolean mask over the columns. *)
Definition loc_mask (df : DataFrame) (mask : list bool) : DataFrame :=
  {| df_len := df_len df; df_cols := select_mask mask (df_cols df) |}.

(** [df.values]: the table as a row-major 2-D array. *)
Definition values (df : DataFrame) : list (list Cell) :=
  map (fun i => map (fun c => cell_at (snd c) i) (df_cols df))
      (seq 0 (df_len df)).

(** [a[:, 1:]] on a 2-D array. *)
Definition slice_from_1 {A : Type} (m : list (list A)) : list (list A) :=
  map (@tl A) m.

(** [df.loc[:, name].values]: no such column is a KeyError, one column
    gives its vector, several columns of that name give a 2-D array. *)
Definition loc_label_values (df : DataFrame) (name : string)
  : Outcome NDArray :=
  match filter (fun c => String.eqb (fst c) name) (df_cols df) with
  | [] => Raise (KeyError name)
  | [c] => Ok (Arr1 (snd c))
  | cs => Ok (ArrObj2 (values {| df_len := df_len df; df_cols := cs |}))
  end.

(** The table as [read_csv] builds it: every column as long as the
    index, and header names made distinct. *)
Definition well_formed (df : DataFrame) : Prop :=
  NoDup (columns df) /\
  Forall (fun c => col_len (snd c) = df_len df) (df_cols df).

(** Lookup of a cell by column name and row number. *)
Fixpoint find_col (name : string) (cs : list (string * Column))
  : option Column :=
  match cs with
  | [] => None
  | (nm, c) :: cs' => if String.eqb nm name then Some c else find_col name cs'
  end.

Definition cell (df : DataFrame) (name : string) (i : nat) : option Cell :=
  option_map (fun c => cell_at c i) (find_col name (df_cols df)).

End Pandas.
Import Pandas.

(** ** Model.pre_process, lines 57 and 60: features and labels *)

Definition label_column : string := "status".

(** [self.data.loc[:, self.data.columns != 'status'].values[:, 1:]] *)
Definition raw_features (df : DataFrame) : list (list Cell) :=
  slice_from_1 (values (loc_mask df (columns_ne df label_column))).

(** [self.data.loc[:, 'status'].values] *)
Definition raw_labels (df : DataFrame) : Outcome NDArray :=
  loc_label_values df label_column.

(** The same matrix in the specification's words: the columns other than
    the label column, the first of them dropped, each cell read from the
    table by column name and row number. *)
Definition spec_feature_names (df : DataFrame) : list string :=
  tl (filter (fun nm => negb (String.eqb nm label_column)) (columns df)).

Definition spec_features (df : DataFrame) : list (list (option Cell)) :=
  map (fun i => map (fun nm => cell df nm i) (spec_feature_names df))
      (seq 0 (df_len df)).

Definition spec_labels (df : DataFrame) : list (option Cell) :=
  map (cell df label_column) (seq 0 (df_len df)).


(** ** numpy: indexing, the random permutation, [savetxt] *)

Module Numpy.

(** The float the script stores as accuracy: a number, or nan. *)
Inductive Float : Type :=
| FNum (q : Q)
| FNaN.

(** [a[idx]] with an integer index array: the rows at those positions, in
    the order of the indices.  The indices the script uses come from a
    permutation of [range(len(a))], so none is out of range. *)
Definition take {A : Type} (l : list A) (idx : list nat) : list A :=
  flat_map (fun i => match nth_error l i with
                     | Some a => [a]
                     | None => []
                     end) idx.

Definition take_column (c : Column) (idx : list nat) : Column :=
  match c with
  | ColObj l => ColObj (take l idx)
  | ColInt l => ColInt (take l idx)
  | ColFloat l => ColFloat (take l idx)
  end.

Definition take_rows (a : NDArray) (idx : list nat) : NDArray :=
  match a with
  | Arr1 c => Arr1 (take_column c idx)
  | ArrObj2 m => ArrObj2 (take m idx)
  | ArrF2 m => ArrF2 (take m idx)
  end.

(** [len(a)] *)
Definition array_len (a : NDArray) : nat :=
  match a with
  | Arr1 c => col_len c
  | ArrObj2 m => length m
  | ArrF2 m => length m
  end.

Definition insert_at {A : Type} (k : nat) (a : A) (l : list A) : list A :=
  firstn k l ++ a :: skipn k l.

(** A shuffle driven by a sequence of random draws: each element is put at
    a drawn position among those already placed. *)
Fixpoint shuffle {A : Type} (draw : nat -> nat) (l : list A) : list A :=
  match l with
  | [] => []
  | a :: l' =>
      let r := shuffle (fun i => draw (S i)) l' in
      insert_at (draw 0%nat mod S (length r)) a r
  end.

(** [rng.permutation(n)]: a shuffled [arange(n)]. *)
Definition permutation (draw : nat -> nat) (n : nat) : list nat :=
  shuffle draw (seq 0 n).

(** *** The format ['%.18e'] *)

(** The decimal digits of a natural number. *)
Definition digits (z : Z) : string :=
  NilZero.string_of_uint (N.to_uint (Z.to_N z)).

(** [n/d * 10^k] as a fraction, for [n >= 0] and [d > 0]. *)
Definition scale10 (n d k : Z) : Z * Z :=
  if (0 <=? k)%Z then ((n * 10 ^ k)%Z, d) else (n, (d * 10 ^ (- k))%Z).

(** The decimal exponent of [n/d > 0]: the [e] with
    [10^e <= n/d < 10^(e+1)], found from the digit counts. *)
Definition exponent10 (n d : Z) : Z :=
  let e0 := (Z.of_nat (String.length (digits n))
             - Z.of_nat (String.length (digits d)))%Z in
  let '(n', d') := scale10 n d (- e0) in
  if (d' <=? n')%Z then e0 else (e0 - 1)%Z.

(** [n/d] rounded to the nearest integer, ties to even. *)
Definition round_half_even (n d : Z) : Z :=
  let q := (n / d)%Z in
  match (2 * (n mod d) ?= d)%Z with
  | Lt => q
  | Gt => (q + 1)%Z
  | Eq => if Z.even q then q else (q + 1)%Z
  end.

Definition pad2 (s : string) : string :=
  if (String.length s <? 2)%nat then "0" ++ s else s.

Definition point_after_first (ds : string) : string :=
  match ds with
  | EmptyString => EmptyString
  | String c rest => String c ("." ++ rest)
  end.

(** ['%.18e' % f]: sign, one digit, a point, eighteen digits, [e], the
    sign of the exponent and at least two exponent digits. *)
Definition fmt_e (f : Float) : string :=
  match f with
  | FNaN => "nan"
  | FNum q =>
      let n := Z.abs (Qnum q) in
      let d := Zpos (Qden q) in
      if (n =? 0)%Z then "0.000000000000000000e+00"
      else
        let e := exponent10 n d in
        let '(n', d') := scale10 n d (18 - e) in
        let m := round_half_even n' d' in
        let '(m1, e1) :=
          if (10 ^ 19 <=? m)%Z then ((10 ^ 18)%Z, (e + 1)%Z) else (m, e) in
        (if (Qnum q <? 0)%Z then "-" else "")
        ++ point_after_first (digits m1)
        ++ "e" ++ (if (e1 <? 0)%Z then "-" else "+")
        ++ pad2 (digits (Z.abs e1))
  end.

(** One line of [savetxt(fname, X, delimiter=',')]: the fields of a row,
    each rendered by the default format ['%.18e'], joined by the delimiter,
    then a newline. *)
Definition newline : string := String (ascii_of_nat 10) "".

Definition savetxt_line (delimiter : string) (row : list Float) : string :=
  String.concat delimiter (map fmt_e row) ++ newline.

(** The lines [savetxt] writes: no header line (the default header is
    empty), one line per row of [X], no footer. *)
Definition savetxt_lines (delimiter : string) (X : list (list Float))
  : list string :=
  map (savetxt_line delimiter) X.




End Numpy.
Import Numpy.

(** ** scikit-learn: scaler, split, metrics *)

Module Sklearn.

(** [check_array(X, dtype=float)] on a cell: numbers convert, text does
    not ([read_csv] keeps a column as text only when some entry of it is
    not a number). *)
Definition as_float (c : Cell) : option Q :=
  match c with
  | CStr _ => None
  | CInt z => Some (inject_Z z)
  | CFloat q => Some q
  end.

Fixpoint all_some {A : Type} (l : list (option A)) : option (list A) :=
  match l with
  | [] => Some []
  | None :: _ => None
  | Some a :: l' => option_map (cons a) (all_some l')
  end.

Definition as_float_matrix (m : list (list Cell)) : option (list (list Q)) :=
  all_some (map (fun r => all_some (map as_float r)) m).

(** Input validation of the scaler: a 2-D array of numbers with at least
    one sample and at least one feature. *)
Definition check_array (a : NDArray) : Outcome (list (list Q)) :=
  match a with
  | Arr1 _ => Raise (ValueError "Expected 2D array, got 1D array instead")
  | ArrObj2 m =>
      match as_float_matrix m with
      | None => Raise (ValueError "could not convert string to float")
      | Some fm =>
          match fm with
          | [] => Raise (ValueError "Found array with 0 sample(s)")
          | [] :: _ => Raise (ValueError "Found array with 0 feature(s)")
          | _ => Ok fm
          end
      end
  | ArrF2 fm =>
      match fm with
      | [] => Raise (ValueError "Found array with 0 sample(s)")
      | [] :: _ => Raise (ValueError "Found array with 0 feature(s)")
      | _ => Ok fm
      end
  end.

(** Column [j] of a row-major matrix. *)
Definition column (j : nat) (m : list (list Q)) : list Q :=
  map (fun r => nth j r 0%Q) m.

Definition n_features (m : list (list Q)) : nat :=
  match m with
  | [] => 0%nat
  | r :: _ => length r
  end.

Definition Qmin (a b : Q) : Q := if Qle_bool a b then a else b.
Definition Qmax (a b : Q) : Q := if Qle_bool a b then b else a.

Definition list_min (l : list Q) : Q :=
  match l with
  | [] => 0%Q
  | a :: l' => fold_left Qmin l' a
  end.

Definition list_max (l : list Q) : Q :=
  match l with
  | [] => 0%Q
  | a :: l' => fold_left Qmax l' a
  end.

(** [np.min(X, axis=0)] and [np.max(X, axis=0)] *)
Definition data_min (m : list (list Q)) : list Q :=
  map (fun j => list_min (column j m)) (seq 0 (n_features m)).

Definition data_max (m : list (list Q)) : list Q :=
  map (fun j => list_max (column j m)) (seq 0 (n_features m)).

(** [10 * np.finfo(float64).eps], with eps = 2^-52. *)
Definition tiny_range : Q := (10 # 1) * (1 # (2 ^ 52)).

(** [_handle_zeros_in_scale]: a range below the threshold is taken as 1,
    so that a constant feature is not divided by zero. *)
Definition handle_zeros_in_scale (r : Q) : Q :=
  if Qle_bool tiny_range r then r else 1%Q.

(** The two ends of the target range of [MinMaxScaler((-1, 1))]. *)
Definition feature_range : Q * Q := ((-1)%Q, 1%Q).

(** [scale_ = (hi - lo) / _handle_zeros_in_scale(data_max - data_min)] *)
Definition scale_ (m : list (list Q)) : list Q :=
  map (fun '(lo, hi) =>
         (snd feature_range - fst feature_range) / handle_zeros_in_scale (hi - lo))%Q
      (combine (data_min m) (data_max m)).

(** [min_ = lo - data_min * scale_] *)
Definition min_ (m : list (list Q)) : list Q :=
  map (fun '(lo, s) => (fst feature_range - lo * s)%Q)
      (combine (data_min m) (scale_ m)).

(** [X *= scale_; X += min_], broadcast over the rows. *)
Definition transform (m : list (list Q)) (sc mn : list Q) : list (list Q) :=
  map (fun r => map (fun '(v, (s, b)) => (v * s + b)%Q)
                    (combine r (combine sc mn))) m.

(** [MinMaxScaler((-1, 1)).fit_transform(X)]: the parameters are fitted on
    the matrix that is then transformed; the input is copied, not changed. *)
Definition fit_transform (a : NDArray) : Outcome (list (list Q)) :=
  match check_array a with
  | Raise e => Raise e
  | Ok m => Ok (transform m (scale_ m) (min_ m))
  end.

(** The test fraction passed at line 68. *)
Definition test_size : Q := 15 # 100.

(** [_validate_shuffle_split] with a float [test_size] and no
    [train_size]: [n_test = ceil(test_size * n)], [n_train = n - n_test],
    and an empty train set is an error.  The product is taken exactly: the
    double nearest to 0.15 is so close to 3/20 that the rounded product
    [0.15 * n] has the ceiling of [3n/20] for every row count a table can
    have. *)
Definition n_test_of (n : nat) : nat :=
  Z.to_nat (Qceiling (test_size * inject_Z (Z.of_nat n))).

Definition validate_shuffle_split (n : nat) : Outcome (nat * nat) :=
  let n_test := n_test_of n in
  let n_train := (n - n_test)%nat in
  if (n_train =? 0)%nat
  then Raise (ValueError "the resulting train set will be empty")
  else Ok (n_train, n_test).

(** [ShuffleSplit]: the first [n_test] entries of a random permutation are
    the test rows, the next [n_train] entries the train rows. *)
Definition split_indices (draw : nat -> nat) (n : nat)
  : Outcome (list nat * list nat) :=
  match validate_shuffle_split n with
  | Raise e => Raise e
  | Ok (n_train, n_test) =>
      let p := permutation draw n in
      Ok (firstn n_train (skipn n_test p), firstn n_test p)
  end.

(** [train_test_split(x, y, test_size=0.15)]: the result is
    [x_train, x_test, y_train, y_test]. *)
Definition train_test_split (draw : nat -> nat) (x y : NDArray)
  : Outcome (NDArray * NDArray * NDArray * NDArray) :=
  if negb (array_len x =? array_len y)%nat
  then Raise (ValueError "Found input variables with inconsistent numbers of samples")
  else
    match split_indices draw (array_len x) with
    | Raise e => Raise e
    | Ok (train, test) =>
        Ok (take_rows x train, take_rows x test,
            take_rows y train, take_rows y test)
    end.

(** Number of positions at which two vectors agree. *)
Fixpoint count_matches (y_true y_pred : list Z) : nat :=
  match y_true, y_pred with
  | a :: t, b :: p =>
      ((if Z.eqb a b then 1 else 0) + count_matches t p)%nat
  | _, _ => 0%nat
  end.

(** [accuracy_score(y_true, y_pred)]: the mean of the element-wise
    comparison; the mean of an empty vector is nan. *)
Definition accuracy_score (y_true y_pred : list Z) : Outcome Float :=
  if negb (length y_true =? length y_pred)%nat
  then Raise (ValueError "Found input variables with inconsistent numbers of samples")
  else
    match y_true with
    | [] => Ok FNaN
    | _ => Ok (FNum (inject_Z (Z.of_nat (count_matches y_true y_pred))
                     / inject_Z (Z.of_nat (length y_true))))
    end.

Fixpoint insert_unique (a : Z) (l : list Z) : list Z :=
  match l with
  | [] => [a]
  | b :: l' =>
      if (a <? b)%Z then a :: l
      else if (a =? b)%Z then l
      else b :: insert_unique a l'
  end.

(** [np.unique]: the distinct values, ascending. *)
Definition unique (l : list Z) : list Z :=
  fold_right insert_unique [] l.

(** [unique_labels(y_true, y_pred)] *)
Definition unique_labels (y_true y_pred : list Z) : list Z :=
  unique (y_true ++ y_pred).

(** Number of samples whose (actual, predicted) pair is [(a, p)]. *)
Fixpoint count_pair (a p : Z) (y_true y_pred : list Z) : nat :=
  match y_true, y_pred with
  | t :: ts, q :: qs =>
      ((if (Z.eqb t a && Z.eqb q p)%bool then 1 else 0)
       + count_pair a p ts qs)%nat
  | _, _ => 0%nat
  end.

(** [confusion_matrix(y_true, y_pred)]: rows are actual labels, columns
    predicted labels, both in the order of [unique_labels]. *)
Definition confusion_matrix (y_true y_pred : list Z)
  : Outcome (list (list nat)) :=
  if negb (length y_true =? length y_pred)%nat
  then Raise (ValueError "Found input variables with inconsistent numbers of samples")
  else
    let labels := unique_labels y_true y_pred in
    Ok (map (fun a => map (fun p => count_pair a p y_true y_pred) labels)
            labels).

End Sklearn.
Import Sklearn.

(** ** XGBoost, the clock and the random source: interfaces *)

(** [XGBClassifier(...)]: fitting on the train split with the two
    evaluation sets gives a fitted model or an error; a fitted model
    predicts one label per row and carries its two loss histories. *)
Class Classifier : Type := {
  booster : Type;
  xgb_fit : list (list Q) -> list Z -> list (list Q) -> list Z
            -> Outcome booster;
  xgb_predict_row : booster -> list Q -> Z;
  xgb_evals_result : booster -> list Q * list Q
}.

(** What the process reads from outside: the [k]-th reading of
    [time.time()] and the [k]-th draw of numpy's global random state. *)
Class Environment : Type := {
  time_at : nat -> Q;
  rand_at : nat -> nat
}.

(** ** The state of the process *)

(** What a path of the file system holds. *)
Inductive FileData : Type :=
| FTable (df : DataFrame)
| FGarbage
| FLines (lines : list string).

(** What the process does, in order: a table read by [read_csv], a line
    printed by the script, the creation of the scaled matrix, of the split
    and of the fitted model (the log lines the fit itself may emit belong
    to [EvFit]), the two figures and their display, the write of the
    results file. *)
Inductive Event : Type :=
| EvRead (path : string)
| EvPrint (line : string)
| EvScale
| EvSplit
| EvFit
| EvPlotLoss (train_loss test_loss : list Q)
| EvHeatmap (c_matrix : list (list nat))
| EvShow
| EvWrite (path : string) (lines : list string).

Definition input_path : string := "data/parkinsons.data".
Definition output_path : string := "xgboost_results.csv".
Definition missing_message : string := "parkinsons.data not found".

(** [np.int64]/[int] labels of a vector; the model covers integer label
    columns, as the 0/1 [status] column of the dataset is. *)
Definition int_labels (a : NDArray) : Outcome (list Z) :=
  match a with
  | Arr1 (ColInt l) => Ok l
  | _ => Raise (ValueError "labels are not an integer vector")
  end.

Definition float_rows (a : NDArray) : Outcome (list (list Q)) :=
  match a with
  | ArrF2 m => Ok m
  | _ => Raise (ValueError "features are not a float matrix")
  end.

(** [int(q)]: truncation toward zero. *)
Definition Qtrunc (q : Q) : Z := Z.quot (Qnum q) (Zpos (Qden q)).

(** ["%d" % z] *)
Definition fmt_d (z : Z) : string := NilZero.string_of_int (Z.to_int z).

(** ["Accuracy: %d" % q] *)
Definition accuracy_line (q : Q) : string :=
  "Accuracy: " ++ fmt_d (Qtrunc q).
Arguments accuracy_line : simpl never.

Definition Fmul100 (f : Float) : Float :=
  match f with
  | FNum q => FNum (q * 100)%Q
  | FNaN => FNaN
  end.

Section Pipeline.

Context {clf : Classifier} {env : Environment}.

(** The attributes of a [Model] object; an attribute exists once it has
    been assigned. *)
Record Model : Type := {
  data : option DataFrame;
  x : option NDArray;
  y : option NDArray;
  x_train : option NDArray;
  x_test : option NDArray;
  y_train : option NDArray;
  y_test : option NDArray;
  model : option booster;
  y_pred : option (list Z);
  accuracy : option Float
}.

Definition new_object : Model :=
  {| data := None; x := None; y := None; x_train := None; x_test := None;
     y_train := None; y_test := None; model := None; y_pred := None;
     accuracy := None |}.

Record State : Type := {
  self : Model;
  files : list (string * FileData);
  ticks : nat;
  draws : nat;
  trace : list Event
}.

Definition M (A : Type) : Type := State -> Outcome A * State.

Definition ret {A : Type} (a : A) : M A := fun s => (Ok a, s).

Definition bind {A B : Type} (m : M A) (k : A -> M B) : M B :=
  fun s =>
    match m s with
    | (Ok a, s') => k a s'
    | (Raise e, s') => (Raise e, s')
    end.

Definition raise {A : Type} (e : Exn) : M A := fun s => (Raise e, s).

Definition lift {A : Type} (o : Outcome A) : M A := fun s => (o, s).

(** [try: body except: handler] with a bare [except]. *)
Definition try_except {A : Type} (body handler : M A) : M A :=
  fun s =>
    match body s with
    | (Ok a, s') => (Ok a, s')
    | (Raise _, s') => handler s'
    end.

Notation "x <- m ;; k" := (bind m (fun x => k))
  (at level 61, m at next level, right associativity).
Notation "m ;;; k" := (bind m (fun _ => k))
  (at level 61, right associativity).

(** Reading an attribute that was never assigned is an AttributeError. *)
Definition getattr {A : Type} (name : string) (field : Model -> option A)
  : M A :=
  fun s =>
    match field (self s) with
    | Some a => (Ok a, s)
    | None => (Raise (AttributeError name), s)
    end.

Definition with_self (f : Model -> Model) : M unit :=
  fun s =>
    (Ok tt,
     {| self := f (self s); files := files s; ticks := ticks s;
        draws := draws s; trace := trace s |}).

Definition set_data (v : DataFrame) : M unit :=
  with_self (fun o =>
    {| data := Some v; x := x o; y := y o; x_train := x_train o;
       x_test := x_test o; y_train := y_train o; y_test := y_test o;
       model := model o; y_pred := y_pred o; accuracy := accuracy o |}).

Definition set_x (v : NDArray) : M unit :=
  with_self (fun o =>
    {| data := data o; x := Some v; y := y o; x_train := x_train o;
       x_test := x_test o; y_train := y_train o; y_test := y_test o;
       model := model o; y_pred := y_pred o; accuracy := accuracy o |}).

Definition set_y (v : NDArray) : M unit :=
  with_self (fun o =>
    {| data := data o; x := x o; y := Some v; x_train := x_train o;
       x_test := x_test o; y_train := y_train o; y_test := y_test o;
       model := model o; y_pred := y_pred o; accuracy := accuracy o |}).

Definition set_split (xtr xte ytr yte : NDArray) : M unit :=
  with_self (fun o =>
    {| data := data o; x := x o; y := y o; x_train := Some xtr;
       x_test := Some xte; y_train := Some ytr; y_test := Some yte;
       model := model o; y_pred := y_pred o; accuracy := accuracy o |}).

Definition set_model (v : booster) : M unit :=
  with_self (fun o =>
    {| data := data o; x := x o; y := y o; x_train := x_train o;
       x_test := x_test o; y_train := y_train o; y_test := y_test o;
       model := Some v; y_pred := y_pred o; accuracy := accuracy o |}).

Definition set_y_pred (v : list Z) : M unit :=
  with_self (fun o =>
    {| data := data o; x := x o; y := y o; x_train := x_train o;
       x_test := x_test o; y_train := y_train o; y_test := y_test o;
       model := model o; y_pred := Some v; accuracy := accuracy o |}).

Definition set_accuracy (v : Float) : M unit :=
  with_self (fun o =>
    {| data := data o; x := x o; y := y o; x_train := x_train o;
       x_test := x_test o; y_train := y_train o; y_test := y_test o;
       model := model o; y_pred := y_pred o; accuracy := Some v |}).

(** An effect on the outside is recorded in the trace. *)
Definition emit (ev : Event) : M unit :=
  fun s =>
    (Ok tt,
     {| self := self s; files := files s; ticks := ticks s;
        draws := draws s; trace := trace s ++ [ev] |}).

(** [print(line)] *)
Definition print (line : string) : M unit := emit (EvPrint line).

Fixpoint lookup_file (path : string) (fs : list (string * FileData))
  : option FileData :=
  match fs with
  | [] => None
  | (p, d) :: fs' => if String.eqb p path then Some d else lookup_file path fs'
  end.

(** [pd.read_csv(path)]: a missing file and a file that is not a table
    both raise. *)
Definition read_csv (path : string) : M DataFrame :=
  fun s =>
    match lookup_file path (files s) with
    | None => (Raise (FileNotFoundError path), s)
    | Some (FTable df) =>
        (Ok df,
         {| self := self s; files := files s; ticks := ticks s;
            draws := draws s; trace := trace s ++ [EvRead path] |})
    | Some _ => (Raise (ParserError path), s)
    end.

(** [time.time()]: the next reading of the clock. *)
Definition time : M Q :=
  fun s =>
    (Ok (time_at (ticks s)),
     {| self := self s; files := files s; ticks := S (ticks s);
        draws := draws s; trace := trace s |}).

(** The random draws not yet consumed; a permutation of [n] rows
    consumes [n] of them. *)
Definition next_draws (n : nat) : M (nat -> nat) :=
  fun s =>
    (Ok (fun i => rand_at (draws s + i)),
     {| self := self s; files := files s; ticks := ticks s;
        draws := draws s + n; trace := trace s |}).

(** [np.savetxt(path, rows, delimiter=',')]: the file is created or
    replaced. *)
Definition savetxt (path : string) (rows : list (list Float)) : M unit :=
  fun s =>
    let lines := savetxt_lines "," rows in
    (Ok tt,
     {| self := self s; files := (path, FLines lines) :: files s;
        ticks := ticks s; draws := draws s;
        trace := trace s ++ [EvWrite path lines] |}).

(** ** Model.__init__, lines 41-50 *)
Definition Model_init : M unit :=
  try_except
    (df <- read_csv input_path ;; set_data df)
    (print missing_message ;;; raise (SystemExit 1)).

(** ** Model.pre_process, lines 52-68 *)
Definition pre_process : M unit :=
  df <- getattr "data" data ;;
  set_x (ArrObj2 (raw_features df)) ;;;
  df' <- getattr "data" data ;;
  labels <- lift (raw_labels df') ;;
  set_y labels ;;;
  x0 <- getattr "x" x ;;
  scaled <- lift (fit_transform x0) ;;
  emit EvScale ;;;
  set_x (ArrF2 scaled) ;;;
  x1 <- getattr "x" x ;;
  y1 <- getattr "y" y ;;
  draw <- next_draws (array_len x1) ;;
  parts <- lift (train_test_split draw x1 y1) ;;
  emit EvSplit ;;;
  let '(xtr, xte, ytr, yte) := parts in
  set_split xtr xte ytr yte.

(** ** Model.train, lines 70-101 *)
Definition train : M unit :=
  xtr <- getattr "x_train" x_train ;;
  ytr <- getattr "y_train" y_train ;;
  xte <- getattr "x_test" x_test ;;
  yte <- getattr "y_test" y_test ;;
  xtr_f <- lift (float_rows xtr) ;;
  ytr_i <- lift (int_labels ytr) ;;
  xte_f <- lift (float_rows xte) ;;
  yte_i <- lift (int_labels yte) ;;
  b <- lift (xgb_fit xtr_f ytr_i xte_f yte_i) ;;
  emit EvFit ;;;
  set_model b ;;;
  set_y_pred (map (xgb_predict_row b) xte_f) ;;;
  yp <- getattr "y_pred" y_pred ;;
  score <- lift (accuracy_score yte_i yp) ;;
  set_accuracy (Fmul100 score) ;;;
  acc <- getattr "accuracy" accuracy ;;
  match acc with
  | FNaN => raise (ValueError "cannot convert float NaN to integer")
  | FNum q => print (accuracy_line q)
  end ;;;
  let loss := xgb_evals_result b in
  emit (EvPlotLoss (fst loss) (snd loss)) ;;;
  emit EvShow ;;;
  c_matrix <- lift (confusion_matrix yte_i yp) ;;
  emit (EvHeatmap c_matrix) ;;;
  emit EvShow.

(** ** The driver, lines 103-125 *)

(** [parkinsons = Model()]: a new object, then its constructor. *)
Definition Model_new : M unit :=
  with_self (fun _ => new_object) ;;; Model_init.

(** One pass of the loop body for the value [run] of the loop variable;
    the result is the record appended to [results]. *)
Definition run_once (run : nat) : M (list Float) :=
  Model_new ;;;
  pre_process ;;;
  t0 <- time ;;
  train ;;;
  t1 <- time ;;
  let time_len := (t1 - t0)%Q in
  acc <- getattr "accuracy" accuracy ;;
  ret [FNum (inject_Z (Z.of_nat run)); acc; FNum time_len].

(** [for run in runs: results.append(...)] *)
Fixpoint run_loop (runs : list nat) (results : list (list Float))
  : M (list (list Float)) :=
  match runs with
  | [] => ret results
  | run :: runs' =>
      results_arr <- run_once run ;;
      run_loop runs' (results ++ [results_arr])
  end.

Definition main (num_runs : nat) : M unit :=
  results <- run_loop (seq 0 num_runs) [] ;;
  savetxt output_path results.

End Pipeline.

(** The exit status of the process: 0 when the script runs to its end,
    the code of a [SystemExit], 1 for an exception nobody handles. *)
Definition exit_code {A : Type} (o : Outcome A) : Z :=
  match o with
  | Ok _ => 0%Z
  | Raise (SystemExit c) => c
  | Raise _ => 1%Z
  end.

(** What the script's own [print] calls wrote, in order. *)
Definition stdout (t : list Event) : list string :=
  flat_map (fun ev => match ev with EvPrint l => [l] | _ => [] end) t.

Definition is_read (ev : Event) : bool :=
  match ev with EvRead _ => true | _ => false end.
Definition is_scale (ev : Event) : bool :=
  match ev with EvScale => true | _ => false end.
Definition is_split (ev : Event) : bool :=
  match ev with EvSplit => true | _ => false end.
Definition is_fit (ev : Event) : bool :=
  match ev with EvFit => true | _ => false end.
Definition is_write (ev : Event) : bool :=
  match ev with EvWrite _ _ => true | _ => false end.

Definition count_events (p : Event -> bool) (t : list Event) : nat :=
  length (filter p t).

(** ** A small concrete run *)

Module Demo.

(** A classifier that answers 1 when the first feature is positive. *)
Definition sign_classifier : Classifier :=
  {| booster := unit;
     xgb_fit := fun _ _ _ _ => Ok tt;
     xgb_predict_row := fun _ r =>
       if Qle_bool (nth 0 r 0%Q) 0%Q then 0%Z else 1%Z;
     xgb_evals_result := fun _ => ([], []) |}.

(** The clock advances by a third of a second per reading; the draws
    count upwards. *)
Definition steady : Environment :=
  {| time_at := fun k => (Z.of_nat k # 3)%Q;
     rand_at := fun k => (2 * k + 1)%nat |}.

Definition table : DataFrame :=
  {| df_len := 14;
     df_cols :=
       [("name", ColObj ["a"; "b"; "c"; "d"; "e"; "f"; "g";
                          "h"; "i"; "j"; "k"; "l"; "m"; "n"]);
        ("jitter", ColFloat [1#2; 3#2; 5#2; 1#4; 7#2; 2#1; 3#1;
                             9#4; 1#8; 5#4; 7#4; 3#4; 4#1; 1#1]%Q);
        ("status", ColInt [0; 1; 1; 0; 1; 0; 1; 1; 0; 1; 1; 0; 1; 1]%Z);
        ("shimmer", ColInt [4; 9; 6; 5; 8; 7; 4; 3; 6; 5; 9; 8; 7; 6]%Z)] |}.

Definition start (fs : list (string * FileData))
  : @State sign_classifier :=
  {| self := new_object; files := fs; ticks := 0; draws := 0; trace := [] |}.

Definition loaded : @State sign_classifier :=
  start [(input_path, FTable table)].

Definition absent : @State sign_classifier := start [].

(** The state after the constructor and [pre_process]. *)
Definition prepared : @State sign_classifier :=
  snd (bind Model_new (fun _ => pre_process (env := steady)) loaded).


Definition labels_of (a : option NDArray) : list Z :=
  match a with
  | Some (Arr1 (ColInt l)) => l
  | _ => []
  end.

End Demo.

(** ** Statements about the scaled matrix *)


(** A numpy array is rectangular. *)
Definition rectangular (m : list (list Q)) : Prop :=
  Forall (fun r => length r = n_features m) m.





(** ** Statements about the split *)

(** [r] is a nearest integer to [q]: what rounding [q] can give, whatever
    the rule for ties. *)
Definition nearest_integer (r : Z) (q : Q) : Prop :=
  (Qabs (inject_Z r - q) <= 1 # 2)%Q.

(** The rows a split must cover: the row numbers of a table of [n] rows. *)
Definition row_numbers (n : nat) : list nat := seq 0 n.

(** ** Statements about the metrics *)

(** The number of distinct values in a vector. *)
Definition distinct_count (l : list Z) : nat :=
  length (nodup Z.eq_dec l).

(** The sum of all cells of a matrix of counts. *)
Definition matrix_total (m : list (list nat)) : nat :=
  list_sum (map (@list_sum) m).


(** Strictly ascending: every element is below all later ones. *)
Inductive ascending : list Z -> Prop :=
| asc_nil : ascending []
| asc_cons (a : Z) (l : list Z) :
    (forall x, In x l -> (a < x)%Z) -> ascending l -> ascending (a :: l).

(** ** Statements about the state *)

(** [s'] holds the same dataset table and the same files as [s]. *)
Definition untouched {clf : Classifier} (s s' : State) : Prop :=
  data (self s') = data (self s) /\ files s' = files s.

(** A computation that, from every state and whether it returns or
    raises, ends in a state related to the one it started from. *)
Definition preserves {clf : Classifier} {A : Type}
  (R : State -> State -> Prop) (m : M A) : Prop :=
  forall s, R s (snd (m s)).

(** What one pass of the loop does to the outside, in order. *)
Definition run_events (line : string) (train_loss test_loss : list Q)
  (c_matrix : list (list nat)) : list Event :=
  [EvRead input_path; EvScale; EvSplit; EvFit; EvPrint line;
   EvPlotLoss train_loss test_loss; EvShow; EvHeatmap c_matrix; EvShow].

Definition is_run_trace (t : list Event) : Prop :=
  exists line tr te cm, t = run_events line tr te cm.

(** The result record of run [run]: its index, a percentage, and the time
    between two successive readings of the clock. *)
Definition is_record {env : Environment} (run : nat) (row : list Float)
  : Prop :=
  exists (acc : Q) (k : nat),
    row = [FNum (inject_Z (Z.of_nat run)); FNum acc;
           FNum (time_at (S k) - time_at k)]
    /\ (0 <= acc <= 100)%Q.



(** ** Statements about whole tables and whole runs *)

(** The feature columns of a table: what line 57 keeps. *)
Definition feature_columns (df : DataFrame) : list (string * Column) :=
  tl (filter (fun c => negb (String.eqb (fst c) label_column)) (df_cols df)).




(** [s'] has the files of [s] and as many writes behind it. *)
Definition quiet {clf : Classifier} (s s' : State) : Prop :=
  files s' = files s
  /\ count_events is_write (trace s') = count_events is_write (trace s).

(** The exceptions the library calls of [pre_process] raise. *)
Definition is_key_or_value_error (e : Exn) : Prop :=
  match e with
  | KeyError _ | ValueError _ => True
  | _ => False
  end.


(** ** Further concrete cases *)

Module Cases.

(** A table without a [status] column. *)
Definition unlabelled : DataFrame :=
  {| df_len := 2;
     df_cols := [("name", ColObj ["a"; "b"]);
                 ("jitter", ColFloat [1#2; 3#2]%Q)] |}.

(** A table of one row. *)
Definition single : DataFrame :=
  {| df_len := 1;
     df_cols := [("name", ColObj ["a"]);
                 ("jitter", ColFloat [1#2]%Q);
                 ("status", ColInt [1]%Z)] |}.

(** An object that holds the table [df] and nothing else. *)
Definition holding (df : DataFrame) : @State Demo.sign_classifier :=
  {| self := {| data := Some df; x := None; y := None; x_train := None;
                x_test := None; y_train := None; y_test := None;
                model := None; y_pred := None; accuracy := None |};
     files := []; ticks := 0; draws := 0; trace := [] |}.



End Cases.

(** Two states that agree on everything but the object. *)
Definition same_outside {clf : Classifier} (s t : State) : Prop :=
  files s = files t /\ ticks s = ticks t /\ draws s = draws t
  /\ trace s = trace t.


(** * Properties *)

(** ** Features and labels (lines 57 and 60) *)

Section FrameSelection.

Lemma select_mask_filter (name : string) (cs : list (string * Column)) :
  select_mask (map (fun nm => negb (String.eqb nm name)) (map fst cs)) cs
  = filter (fun c => negb (String.eqb (fst c) name)) cs.
Proof.
  induction cs as [|[nm c] cs IH]; simpl; [reflexivity|].
  rewrite IH. destruct (String.eqb nm name); reflexivity.
Qed.

Lemma filter_names (p : string -> bool) (cs : list (string * Column)) :
  filter p (map fst cs) = map fst (filter (fun c => p (fst c)) cs).
Proof.
  induction cs as [|[nm c] cs IH]; simpl; [reflexivity|].
  rewrite IH. destruct (p nm); reflexivity.
Qed.

Lemma find_col_none (name : string) (cs : list (string * Column)) :
  ~ In name (map fst cs) -> find_col name cs = None.
Proof.
  induction cs as [|[nm c] cs IH]; simpl; intros Hn; [reflexivity|].
  destruct (String.eqb_spec nm name) as [->|Hne].
  - exfalso. apply Hn. now left.
  - apply IH. intros Hin. apply Hn. now right.
Qed.

Lemma find_col_in (cs : list (string * Column)) (c : string * Column) :
  NoDup (map fst cs) -> In c cs -> find_col (fst c) cs = Some (snd c).
Proof.
  induction cs as [|[nm col] cs IH]; simpl; intros Hnd Hin; [contradiction|].
  inversion Hnd as [|? ? Hnotin Hnd']; subst.
  destruct Hin as [<-|Hin]; simpl.
  - now rewrite String.eqb_refl.
  - destruct (String.eqb_spec nm (fst c)) as [->|Hne].
    + exfalso. apply Hnotin. now apply in_map.
    + now apply IH.
Qed.

Lemma filter_absent (name : string) (cs : list (string * Column)) :
  ~ In name (map fst cs) ->
  filter (fun c => String.eqb (fst c) name) cs = [].
Proof.
  induction cs as [|[nm c] cs IH]; simpl; intros Hn; [reflexivity|].
  destruct (String.eqb_spec nm name) as [->|Hne].
  - exfalso. apply Hn. now left.
  - apply IH. intros Hin. apply Hn. now right.
Qed.

(** With distinct names, selecting by a name that occurs gives exactly the
    column that a lookup by that name finds. *)
Lemma filter_unique (name : string) (cs : list (string * Column)) :
  NoDup (map fst cs) -> In name (map fst cs) ->
  exists c, filter (fun c => String.eqb (fst c) name) cs = [c]
            /\ find_col name cs = Some (snd c).
Proof.
  induction cs as [|[nm col] cs IH]; simpl; intros Hnd Hin; [contradiction|].
  inversion Hnd as [|? ? Hnotin Hnd']; subst.
  destruct (String.eqb_spec nm name) as [->|Hne].
  - exists (name, col). split; [|reflexivity].
    now rewrite (filter_absent name cs Hnotin).
  - destruct Hin as [Heq|Hin]; [contradiction|].
    exact (IH Hnd' Hin).
Qed.

Lemma tl_map {A B : Type} (f : A -> B) (l : list A) :
  tl (map f l) = map f (tl l).
Proof. destruct l; reflexivity. Qed.

Lemma In_tl {A : Type} (a : A) (l : list A) : In a (tl l) -> In a l.
Proof. destruct l; simpl; auto. Qed.

Lemma raw_features_rows (df : DataFrame) :
  raw_features df
  = map (fun i =>
           map (fun c => cell_at (snd c) i)
               (tl (filter (fun c => negb (String.eqb (fst c) label_column))
                           (df_cols df))))
        (seq 0 (df_len df)).
Proof.
  unfold raw_features, slice_from_1, values, loc_mask, columns_ne, columns.
  simpl. rewrite select_mask_filter, map_map.
  apply map_ext. intros i. apply tl_map.
Qed.

(** C4: for a table as [read_csv] builds it and holding a [status] column,
    the raw feature matrix of line 57 is the table without the [status]
    column and without the first of the remaining columns, cell by cell,
    and the label vector of line 60 is exactly the [status] column; both
    have one entry per row of the table, in the table's row order. *)
Theorem pre_process_selects_features_and_labels (df : DataFrame) :
  well_formed df ->
  In label_column (columns df) ->
  map (map Some) (raw_features df) = spec_features df
  /\ length (raw_features df) = df_len df
  /\ exists c,
       raw_labels df = Ok (Arr1 c)
       /\ map (fun i => Some (cell_at c i)) (seq 0 (df_len df)) = spec_labels df
       /\ col_len c = df_len df.
Proof.
  intros [Hnd Hlen] Hin. unfold columns in *.
  split; [|split].
  - rewrite raw_features_rows. unfold spec_features, spec_feature_names.
    rewrite map_map. apply map_ext. intros i.
    unfold columns. rewrite filter_names, tl_map, !map_map.
    apply map_ext_in. intros c Hc. unfold cell.
    apply In_tl in Hc. apply filter_In in Hc. destruct Hc as [Hc _].
    now rewrite (find_col_in _ _ Hnd Hc).
  - rewrite raw_features_rows. now rewrite length_map, length_seq.
  - destruct (filter_unique label_column (df_cols df) Hnd Hin)
      as [c [Hf Hfind]].
    exists (snd c). split; [|split].
    + unfold raw_labels, loc_label_values. now rewrite Hf.
    + unfold spec_labels, cell. rewrite Hfind. reflexivity.
    + assert (Hc : In c (df_cols df)).
      { assert (Hc' : In c [c]) by now left.
        rewrite <- Hf in Hc'. now apply filter_In in Hc'. }
      rewrite Forall_forall in Hlen. exact (Hlen c Hc).
Qed.

End FrameSelection.

Lemma demo_table_well_formed : well_formed Demo.table.
Proof.
  split.
  - unfold columns; simpl.
    repeat (constructor; [simpl; intuition discriminate|]). constructor.
  - repeat constructor.
Defined.

Lemma pre_process_selects_witness :
  well_formed Demo.table /\ In label_column (columns Demo.table)
  /\ map (map Some) (raw_features Demo.table) = spec_features Demo.table
  /\ length (raw_features Demo.table) = 14%nat.
Proof.
  assert (Hin : In label_column (columns Demo.table)).
  { simpl. right. right. left. reflexivity. }
  destruct (pre_process_selects_features_and_labels
              Demo.table demo_table_well_formed Hin) as [Hx [Hn _]].
  repeat split; try assumption; apply demo_table_well_formed.
Defined.

(** ** Min-max scaling (lines 62-63) *)

Section Scaling.

Local Open Scope Q_scope.


















End Scaling.

Section ScalingMatrix.















End ScalingMatrix.

(** ** The train/test split (lines 65-68) *)

Section Split.

Lemma insert_at_perm {A : Type} (k : nat) (a : A) (l : list A) :
  Permutation (insert_at k a l) (a :: l).
Proof.
  unfold insert_at. rewrite <- (firstn_skipn k l) at 3.
  symmetry. apply Permutation_middle.
Qed.

Lemma shuffle_perm {A : Type} (l : list A) :
  forall draw, Permutation (shuffle draw l) l.
Proof.
  induction l as [|a l IH]; intros draw; simpl; [constructor|].
  rewrite insert_at_perm. constructor. apply IH.
Qed.

Lemma permutation_perm (draw : nat -> nat) (n : nat) :
  Permutation (permutation draw n) (row_numbers n).
Proof. apply shuffle_perm. Qed.

Lemma take_app {A : Type} (l : list A) (i1 i2 : list nat) :
  take l (i1 ++ i2) = take l i1 ++ take l i2.
Proof. unfold take. apply flat_map_app. Qed.

Lemma take_shift {A : Type} (a : A) (l : list A) (idx : list nat) :
  take (a :: l) (map S idx) = take l idx.
Proof.
  unfold take. induction idx as [|i idx IH]; simpl; [reflexivity|].
  now rewrite IH.
Qed.

Lemma take_all {A : Type} (l : list A) : take l (seq 0 (length l)) = l.
Proof.
  induction l as [|a l IH]; simpl; [reflexivity|].
  rewrite <- seq_shift.
  change (a :: take (a :: l) (map S (seq 0 (length l))) = a :: l).
  now rewrite take_shift, IH.
Qed.

Lemma take_perm {A : Type} (l : list A) (idx : list nat) :
  Permutation idx (row_numbers (length l)) -> Permutation (take l idx) l.
Proof.
  intros Hp. unfold take. rewrite Hp.
  fold (take l (row_numbers (length l))). unfold row_numbers.
  now rewrite take_all.
Qed.

(** The ceiling of line 68's [0.15 * n], in integers. *)
Lemma n_test_bounds (n : nat) :
  (15 * Z.of_nat n <= 100 * Z.of_nat (n_test_of n) < 15 * Z.of_nat n + 100)%Z.
Proof.
  unfold n_test_of. set (q := (test_size * inject_Z (Z.of_nat n))%Q).
  pose proof (Qle_ceiling q) as Hle. pose proof (Qceiling_lt q) as Hlt.
  remember (Qceiling q) as c eqn:Ec. clear Ec.
  unfold q, test_size in Hle, Hlt. unfold Qle, Qlt in Hle, Hlt.
  cbn [Qnum Qden Qmult inject_Z] in Hle, Hlt.
  rewrite Z2Nat.id by lia. lia.
Qed.

Lemma n_test_le (n : nat) : (n_test_of n <= n)%nat.
Proof. pose proof (n_test_bounds n). lia. Qed.

Lemma validate_shuffle_split_spec (n : nat) :
  match validate_shuffle_split n with
  | Ok (n_train, n_test) =>
      n_test = n_test_of n /\ (n_train + n_test = n)%nat
      /\ (0 < n_train)%nat /\ (2 <= n)%nat
  | Raise _ => (n < 2)%nat
  end.
Proof.
  unfold validate_shuffle_split.
  pose proof (n_test_bounds n) as Hb. pose proof (n_test_le n) as Hle.
  destruct (Nat.eqb_spec (n - n_test_of n) 0) as [E|E]; lia.
Qed.

Lemma NoDup_app_disjoint {A : Type} (l1 l2 : list A) :
  NoDup (l1 ++ l2) -> forall a, In a l1 -> ~ In a l2.
Proof.
  induction l1 as [|b l1 IH]; simpl; intros Hnd a Hin; [contradiction|].
  inversion Hnd as [|? ? Hnotin Hnd']; subst.
  destruct Hin as [<-|Hin].
  - intros H2. apply Hnotin. apply in_or_app. now right.
  - now apply IH.
Qed.

Lemma take_length {A : Type} (l : list A) (idx : list nat) :
  Forall (fun i => (i < length l)%nat) idx ->
  length (take l idx) = length idx.
Proof.
  unfold take. induction 1 as [|i idx Hi _ IH]; simpl; [reflexivity|].
  apply nth_error_Some in Hi.
  destruct (nth_error l i); [|congruence]. simpl. now rewrite IH.
Qed.

Lemma take_rows_length (a : NDArray) (idx : list nat) :
  Forall (fun i => (i < array_len a)%nat) idx ->
  array_len (take_rows a idx) = length idx.
Proof.
  destruct a as [[l|l|l]|m|m]; simpl; apply take_length.
Qed.

(** The index lists of a split: the test rows and the train rows are the
    two ends of one permutation of the row numbers. *)
Lemma split_indices_spec (draw : nat -> nat) (n : nat) :
  match split_indices draw n with
  | Ok (train, test) =>
      test ++ train = permutation draw n
      /\ length test = n_test_of n
      /\ (length train + length test = n)%nat
      /\ (0 < length train)%nat
  | Raise _ => (n < 2)%nat
  end.
Proof.
  unfold split_indices. pose proof (validate_shuffle_split_spec n) as Hv.
  destruct (validate_shuffle_split n) as [[n_train n_test]|e]; [|exact Hv].
  destruct Hv as [-> [Hsum [Hpos _]]].
  pose proof (Permutation_length (permutation_perm draw n)) as Hlen.
  unfold row_numbers in Hlen. rewrite length_seq in Hlen.
  assert (Htrain : firstn n_train (skipn (n_test_of n) (permutation draw n))
                   = skipn (n_test_of n) (permutation draw n)).
  { apply firstn_all2. rewrite length_skipn. lia. }
  rewrite Htrain. split; [apply firstn_skipn|].
  rewrite length_firstn, length_skipn. lia.
Qed.

(** C3: whenever line 68 returns, the four parts are the rows of [x] and
    of [y] at two index lists [train] and [test] that together are a
    permutation of the row numbers (so they are disjoint, without
    repetition, and cover every row); the rows of any row-aligned table
    taken at the two lists are a rearrangement of that table; and the
    number of test rows is within 1 of every nearest integer to
    [0.15 * N].  The call fails only for fewer than two rows. *)
Theorem train_test_split_partition (draw : nat -> nat) (x y : NDArray) :
  array_len x = array_len y ->
  match train_test_split draw x y with
  | Raise _ => (array_len x < 2)%nat
  | Ok (xtr, xte, ytr, yte) =>
      exists train test,
        xtr = take_rows x train /\ xte = take_rows x test
        /\ ytr = take_rows y train /\ yte = take_rows y test
        /\ Permutation (test ++ train) (row_numbers (array_len x))
        /\ NoDup (test ++ train)
        /\ (forall i, In i test -> ~ In i train)
        /\ (forall (A : Type) (l : list A), length l = array_len x ->
              Permutation (take l test ++ take l train) l)
        /\ array_len xte = length test /\ array_len yte = length test
        /\ array_len xtr = length train /\ array_len ytr = length train
        /\ (length train + length test = array_len x)%nat
        /\ length test = n_test_of (array_len x)
        /\ forall r : Z,
             nearest_integer r (test_size * inject_Z (Z.of_nat (array_len x))) ->
             (Z.abs (Z.of_nat (length test) - r) <= 1)%Z
  end.
Proof.
  intros Hxy. unfold train_test_split.
  rewrite Hxy, Nat.eqb_refl. simpl. rewrite <- Hxy.
  pose proof (split_indices_spec draw (array_len x)) as Hs.
  destruct (split_indices draw (array_len x)) as [[train test]|e];
    [|exact Hs].
  destruct Hs as [Happ [Htest [Hsum Hpos]]].
  assert (Hperm : Permutation (test ++ train) (row_numbers (array_len x))).
  { rewrite Happ. apply permutation_perm. }
  assert (Hnd : NoDup (test ++ train)).
  { apply (Permutation_NoDup (Permutation_sym Hperm)). apply seq_NoDup. }
  assert (Hrange : Forall (fun i => (i < array_len x)%nat) (test ++ train)).
  { apply Forall_forall. intros i Hi.
    apply (Permutation_in _ Hperm) in Hi. unfold row_numbers in Hi.
    apply in_seq in Hi. lia. }
  apply Forall_app in Hrange. destruct Hrange as [Hrt Hrn].
  exists train, test. repeat split; try reflexivity; try assumption.
  - now apply NoDup_app_disjoint.
  - intros A l Hl. rewrite <- take_app. apply take_perm. now rewrite Hl.
  - now apply take_rows_length.
  - apply take_rows_length. now rewrite <- Hxy.
  - now apply take_rows_length.
  - apply take_rows_length. now rewrite <- Hxy.
  - intros r Hr. unfold nearest_integer in Hr.
    apply Qabs_Qle_condition in Hr. destruct Hr as [Hr1 Hr2].
    pose proof (n_test_bounds (array_len x)) as Hb. rewrite <- Htest in Hb.
    unfold test_size in Hr1, Hr2. unfold Qle in Hr1, Hr2.
    cbn [Qnum Qden Qmult Qminus Qplus Qopp inject_Z] in Hr1, Hr2. lia.
Qed.

(** A table of seven rows is split into five train rows and two test
    rows. *)
Lemma train_test_split_partition_witness :
  let x := ArrF2 [[1]; [2]; [3]; [4]; [5]; [6]; [7]]%Q in
  let y := Arr1 (ColInt [0; 1; 1; 0; 1; 0; 1]%Z) in
  let draw := fun i => (2 * i + 1)%nat in
  array_len x = array_len y
  /\ exists train test,
       train_test_split draw x y
       = Ok (take_rows x train, take_rows x test,
             take_rows y train, take_rows y test)
       /\ Permutation (test ++ train) (row_numbers 7)
       /\ length test = 2%nat.
Proof.
  intros x y draw. split; [reflexivity|].
  pose proof (train_test_split_partition draw x y eq_refl) as H.
  destruct (train_test_split draw x y) as [[[[xtr xte] ytr] yte]|e] eqn:E.
  - destruct H as [train [test [-> [-> [-> [-> [Hp H]]]]]]].
    exists train, test. split; [reflexivity|]. split; [exact Hp|].
    destruct H as [_ [_ [_ [_ [_ [_ [_ [_ [Hl _]]]]]]]]]. exact Hl.
  - exfalso. vm_compute in E. discriminate.
Defined.

End Split.

(** ** Accuracy and confusion matrix (lines 80 and 96) *)

Section Metrics.

Lemma insert_unique_In (a x : Z) (l : list Z) :
  In x (insert_unique a l) <-> x = a \/ In x l.
Proof.
  induction l as [|b l IH]; simpl.
  - intuition.
  - destruct (Z.ltb_spec a b).
    + simpl. intuition.
    + destruct (Z.eqb_spec a b) as [->|Hne]; simpl.
      * intuition.
      * rewrite IH. intuition.
Qed.

Lemma insert_unique_ascending (a : Z) (l : list Z) :
  ascending l -> ascending (insert_unique a l).
Proof.
  induction 1 as [|b l Hb Hl IH]; simpl.
  - constructor; [intros x []| constructor].
  - destruct (Z.ltb_spec a b).
    + constructor; [|now constructor].
      intros x [<-|Hx]; [assumption|]. specialize (Hb x Hx). lia.
    + destruct (Z.eqb_spec a b) as [->|Hne]; [now constructor|].
      constructor; [|exact IH].
      intros x Hx. apply insert_unique_In in Hx.
      destruct Hx as [->|Hx]; [lia | now apply Hb].
Qed.

Lemma unique_ascending (l : list Z) : ascending (unique l).
Proof.
  induction l as [|a l IH]; simpl; [constructor|].
  now apply insert_unique_ascending.
Qed.

Lemma unique_In (x : Z) (l : list Z) : In x (unique l) <-> In x l.
Proof.
  induction l as [|a l IH]; simpl; [reflexivity|].
  rewrite insert_unique_In, IH. intuition.
Qed.

Lemma ascending_NoDup (l : list Z) : ascending l -> NoDup l.
Proof.
  induction 1 as [|a l Ha Hl IH]; constructor; [|exact IH].
  intros Hin. specialize (Ha a Hin). lia.
Qed.

Lemma unique_NoDup (l : list Z) : NoDup (unique l).
Proof. apply ascending_NoDup, unique_ascending. Qed.

(** [np.unique] returns as many values as there are distinct ones. *)
Lemma unique_length (l : list Z) : length (unique l) = distinct_count l.
Proof.
  unfold distinct_count. apply Permutation_length.
  apply NoDup_Permutation.
  - apply unique_NoDup.
  - apply NoDup_nodup.
  - intros x. rewrite unique_In, nodup_In. reflexivity.
Qed.

Lemma list_sum_map_add {A : Type} (f g : A -> nat) (l : list A) :
  list_sum (map (fun a => (f a + g a)%nat) l)
  = (list_sum (map f l) + list_sum (map g l))%nat.
Proof. induction l as [|a l IH]; simpl; [reflexivity|]. rewrite IH. lia. Qed.

Lemma list_sum_map_zero {A : Type} (l : list A) :
  list_sum (map (fun _ => 0%nat) l) = 0%nat.
Proof. induction l; simpl; auto. Qed.

Lemma list_sum_indicator_absent (t : Z) (L : list Z) :
  ~ In t L ->
  list_sum (map (fun a => if Z.eqb t a then 1%nat else 0%nat) L) = 0%nat.
Proof.
  induction L as [|b L IH]; simpl; intros Hn; [reflexivity|].
  destruct (Z.eqb_spec t b) as [->|Hne].
  - exfalso. apply Hn. now left.
  - apply IH. intros H. apply Hn. now right.
Qed.

(** Over distinct labels, exactly one label equals a given member. *)
Lemma list_sum_indicator (t : Z) (L : list Z) :
  NoDup L -> In t L ->
  list_sum (map (fun a => if Z.eqb t a then 1%nat else 0%nat) L) = 1%nat.
Proof.
  induction 1 as [|b L Hb Hnd IH]; simpl; intros Hin; [contradiction|].
  destruct (Z.eqb_spec t b) as [->|Hne].
  - now rewrite list_sum_indicator_absent.
  - destruct Hin as [->|Hin]; [congruence|]. now apply IH.
Qed.

Lemma list_sum_pair_indicator (t q : Z) (L : list Z) :
  NoDup L -> In t L -> In q L ->
  list_sum
    (map (fun a =>
            list_sum
              (map (fun p => if (Z.eqb t a && Z.eqb q p)%bool
                             then 1%nat else 0%nat) L)) L)
  = 1%nat.
Proof.
  intros Hnd Ht Hq.
  transitivity
    (list_sum (map (fun a => if Z.eqb t a then 1%nat else 0%nat) L));
    [|now apply list_sum_indicator].
  f_equal. apply map_ext. intros a. destruct (Z.eqb t a); simpl.
  - now apply list_sum_indicator.
  - apply list_sum_map_zero.
Qed.

(** Every sample falls in exactly one cell. *)
Lemma count_pair_total (L : list Z) (y_true y_pred : list Z) :
  NoDup L ->
  length y_true = length y_pred ->
  (forall v, In v y_true -> In v L) ->
  (forall v, In v y_pred -> In v L) ->
  list_sum
    (map (fun a => list_sum (map (fun p => count_pair a p y_true y_pred) L)) L)
  = length y_true.
Proof.
  intros Hnd. revert y_pred.
  induction y_true as [|t ts IH]; intros [|q qs] Hlen Ht Hp;
    try discriminate; simpl.
  - induction L as [|b L' IHL]; [reflexivity|]. simpl.
    rewrite list_sum_map_zero. simpl.
    clear IHL. induction L' as [|c L'' IHL']; [reflexivity|].
    simpl. now rewrite list_sum_map_zero.
  - transitivity
      (list_sum
         (map (fun a =>
                 list_sum
                   (map (fun p => if (Z.eqb t a && Z.eqb q p)%bool
                                  then 1%nat else 0%nat) L)) L)
       + list_sum
           (map (fun a =>
                   list_sum (map (fun p => count_pair a p ts qs) L)) L))%nat.
    + rewrite <- list_sum_map_add. f_equal. apply map_ext. intros a.
      now rewrite <- list_sum_map_add.
    + rewrite list_sum_pair_indicator;
        [|exact Hnd|apply Ht; now left|apply Hp; now left].
      rewrite (IH qs); [reflexivity|simpl in Hlen; lia| |].
      * intros v Hv. apply Ht. now right.
      * intros v Hv. apply Hp. now right.
Qed.

(** C7: for a test label vector and a prediction vector of the same
    length, the confusion matrix is square, its side is the number of
    distinct values occurring in the two vectors, and its cells add up to
    the number of test rows. *)
Theorem confusion_matrix_shape_and_total (y_true y_pred : list Z) :
  length y_true = length y_pred ->
  exists cm,
    confusion_matrix y_true y_pred = Ok cm
    /\ length cm = distinct_count (y_true ++ y_pred)
    /\ Forall (fun row => length row = distinct_count (y_true ++ y_pred)) cm
    /\ matrix_total cm = length y_true.
Proof.
  intros Hlen. unfold confusion_matrix. rewrite Hlen, Nat.eqb_refl. simpl.
  eexists. split; [reflexivity|].
  unfold unique_labels. split; [|split].
  - now rewrite length_map, unique_length.
  - apply Forall_forall. intros row Hrow. apply in_map_iff in Hrow.
    destruct Hrow as [a [<- _]]. now rewrite length_map, unique_length.
  - unfold matrix_total. rewrite map_map. rewrite <- Hlen.
    apply count_pair_total.
    + apply unique_NoDup.
    + exact Hlen.
    + intros v Hv. apply unique_In. apply in_or_app. now left.
    + intros v Hv. apply unique_In. apply in_or_app. now right.
Qed.

Lemma confusion_matrix_witness :
  length [1; 0; 1]%Z = length [1; 1; 0]%Z
  /\ exists cm, confusion_matrix [1; 0; 1]%Z [1; 1; 0]%Z = Ok cm
                /\ length cm = distinct_count ([1; 0; 1] ++ [1; 1; 0])%Z
                /\ matrix_total cm = 3%nat.
Proof.
  split; [reflexivity|].
  destruct (confusion_matrix_shape_and_total [1; 0; 1]%Z [1; 1; 0]%Z eq_refl)
    as [cm [Hcm [Hl [_ Ht]]]].
  exists cm. repeat split; assumption.
Defined.

End Metrics.

(** ** What the methods leave alone *)

Section Frame.

Context {clf : Classifier} {env : Environment}.

Create HintDb frame.

Lemma untouched_refl (s : State) : untouched s s.
Proof. split; reflexivity. Qed.

Lemma untouched_trans (s1 s2 s3 : State) :
  untouched s1 s2 -> untouched s2 s3 -> untouched s1 s3.
Proof. intros [H1 H2] [H3 H4]. split; congruence. Qed.

Lemma preserves_ret {A : Type} (a : A) : preserves untouched (ret a).
Proof. intros s. apply untouched_refl. Qed.

Lemma preserves_raise {A : Type} (e : Exn) :
  preserves untouched (@raise _ A e).
Proof. intros s. apply untouched_refl. Qed.

Lemma preserves_lift {A : Type} (o : Outcome A) : preserves untouched (lift o).
Proof. intros s. apply untouched_refl. Qed.

Lemma preserves_bind {A B : Type} (m : M A) (k : A -> M B) :
  preserves untouched m -> (forall a, preserves untouched (k a)) ->
  preserves untouched (bind m k).
Proof.
  intros Hm Hk s. unfold bind. specialize (Hm s).
  destruct (m s) as [[a|e] s1]; simpl in *; [|exact Hm].
  eapply untouched_trans; [exact Hm | apply Hk].
Qed.

Lemma preserves_getattr {A : Type} (name : string) (field : Model -> option A) :
  preserves untouched (getattr name field).
Proof.
  intros s. unfold getattr. destruct (field (self s)); apply untouched_refl.
Qed.

Lemma preserves_emit (ev : Event) : preserves untouched (emit ev).
Proof. intros s. split; reflexivity. Qed.

Lemma preserves_print (line : string) : preserves untouched (print line).
Proof. apply preserves_emit. Qed.

Lemma preserves_time : preserves untouched time.
Proof. intros s. split; reflexivity. Qed.

Lemma preserves_next_draws (n : nat) : preserves untouched (next_draws n).
Proof. intros s. split; reflexivity. Qed.

Lemma preserves_set_x (v : NDArray) : preserves untouched (set_x v).
Proof. intros s. split; reflexivity. Qed.

Lemma preserves_set_y (v : NDArray) : preserves untouched (set_y v).
Proof. intros s. split; reflexivity. Qed.

Lemma preserves_set_split (a b c d : NDArray) :
  preserves untouched (set_split a b c d).
Proof. intros s. split; reflexivity. Qed.

Lemma preserves_set_model (b : booster) : preserves untouched (set_model b).
Proof. intros s. split; reflexivity. Qed.

Lemma preserves_set_y_pred (v : list Z) : preserves untouched (set_y_pred v).
Proof. intros s. split; reflexivity. Qed.

Lemma preserves_set_accuracy (v : Float) :
  preserves untouched (set_accuracy v).
Proof. intros s. split; reflexivity. Qed.

Hint Resolve preserves_ret preserves_raise preserves_lift preserves_getattr
  preserves_emit preserves_print preserves_time preserves_next_draws
  preserves_set_x preserves_set_y preserves_set_split preserves_set_model
  preserves_set_y_pred preserves_set_accuracy : frame.

Ltac frame_step :=
  first
    [ apply preserves_bind; [|intros ?]
    | match goal with
      | |- preserves _ (let '(_, _) := ?p in _) => destruct p
      | |- preserves _ (match ?v with _ => _ end) => destruct v
      end
    | solve [auto with frame] ].

Lemma pre_process_untouched : preserves untouched pre_process.
Proof. unfold pre_process. repeat frame_step. Qed.

Lemma train_untouched : preserves untouched train.
Proof. unfold train. repeat frame_step. Qed.

(** C9: whether they return or raise, [pre_process] and [train] end with
    the very table the object held when they started (hence the same shape
    and the same contents); what they assign are the other attributes. *)
Theorem table_is_read_only (s : State) :
  data (self (snd (pre_process s))) = data (self s)
  /\ data (self (snd (train s))) = data (self s)
  /\ option_map shape (data (self (snd (pre_process s))))
     = option_map shape (data (self s))
  /\ option_map shape (data (self (snd (train s))))
     = option_map shape (data (self s))
  /\ data (self (snd (bind pre_process (fun _ => train) s))) = data (self s).
Proof.
  pose proof (pre_process_untouched s) as [Hp _].
  pose proof (train_untouched s) as [Ht _].
  assert (Hb : preserves untouched (bind pre_process (fun _ => train))).
  { apply preserves_bind; [exact pre_process_untouched|].
    intros _. exact train_untouched. }
  destruct (Hb s) as [Hpt _].
  repeat split; try congruence.
Qed.

End Frame.

(** ** What a run does *)

Section Execution.

Context {clf : Classifier} {env : Environment}.

Ltac innermost X :=
  lazymatch X with
  | context [match ?Y with _ => _ end] => innermost Y
  | _ => X
  end.

(** One step of running a monadic program held in hypothesis [H]: case
    analysis on the next thing it inspects; the branches that raise
    contradict a hypothesis that says it returned. *)
Ltac exec_step H :=
  match type of H with
  | context [match ?X with _ => _ end] =>
      let Y := innermost X in
      destruct Y eqn:?; simpl in H; try discriminate H
  end.

Ltac unfold_monad H :=
  unfold bind, ret, getattr, lift, raise, try_except, set_data, set_x, set_y,
    set_split, set_model, set_y_pred, set_accuracy, print, emit, with_self,
    read_csv, time, next_draws, savetxt in H;
  simpl in H.

Lemma float_rows_ok (a : NDArray) (m : list (list Q)) :
  float_rows a = Ok m -> a = ArrF2 m.
Proof. destruct a; simpl; intros H; inversion H; reflexivity. Qed.

Lemma int_labels_ok (a : NDArray) (l : list Z) :
  int_labels a = Ok l -> a = Arr1 (ColInt l).
Proof.
  destruct a as [[?|?|?]|?|?]; simpl; intros H; inversion H; reflexivity.
Qed.

Lemma Fmul100_num (f : Float) (q : Q) :
  Fmul100 f = FNum q -> exists q0, f = FNum q0 /\ q = (q0 * 100)%Q.
Proof.
  destruct f as [q0|]; simpl; intros H; inversion H. now exists q0.
Qed.

(** The constructor either stores the table and records the read, or
    prints the message and raises [SystemExit(1)]. *)
Lemma Model_new_spec (s : State) :
  match lookup_file input_path (files s) with
  | Some (FTable df) =>
      exists s', Model_new s = (Ok tt, s')
                 /\ data (self s') = Some df /\ files s' = files s
                 /\ ticks s' = ticks s /\ draws s' = draws s
                 /\ trace s' = trace s ++ [EvRead input_path]
  | _ =>
      exists s', Model_new s = (Raise (SystemExit 1), s')
                 /\ files s' = files s
                 /\ trace s' = trace s ++ [EvPrint missing_message]
  end.
Proof.
  unfold Model_new, Model_init, bind, try_except, read_csv, with_self,
    set_data, print, emit, raise. simpl.
  destruct (lookup_file input_path (files s)) as [[df| |lines]|];
    eexists; repeat split; reflexivity.
Qed.

Lemma pre_process_ok (s s' : State) :
  pre_process s = (Ok tt, s') ->
  files s' = files s /\ ticks s' = ticks s
  /\ trace s' = trace s ++ [EvScale; EvSplit].
Proof.
  intros H. unfold pre_process in H. unfold_monad H.
  repeat exec_step H.
  inversion H; subst s'; simpl.
  rewrite <- app_assoc. repeat split; reflexivity.
Qed.

(** What [train] did when it returned. *)
Lemma train_ok (s s' : State) :
  train s = (Ok tt, s') ->
  exists xtr ytr xte yte b q cm,
    x_train (self s) = Some (ArrF2 xtr)
    /\ y_train (self s) = Some (Arr1 (ColInt ytr))
    /\ x_test (self s) = Some (ArrF2 xte)
    /\ y_test (self s) = Some (Arr1 (ColInt yte))
    /\ xgb_fit xtr ytr xte yte = Ok b
    /\ accuracy_score yte (map (xgb_predict_row b) xte) = Ok (FNum q)
    /\ confusion_matrix yte (map (xgb_predict_row b) xte) = Ok cm
    /\ model (self s') = Some b
    /\ y_pred (self s') = Some (map (xgb_predict_row b) xte)
    /\ accuracy (self s') = Some (FNum (q * 100))
    /\ files s' = files s /\ ticks s' = ticks s /\ draws s' = draws s
    /\ trace s'
       = trace s
         ++ [EvFit; EvPrint (accuracy_line (q * 100));
             EvPlotLoss (fst (xgb_evals_result b)) (snd (xgb_evals_result b));
             EvShow; EvHeatmap cm; EvShow].
Proof.
  intros H. unfold train in H. unfold_monad H.
  repeat exec_step H.
  repeat match goal with
         | E : float_rows _ = Ok _ |- _ => apply float_rows_ok in E; subst
         | E : int_labels _ = Ok _ |- _ => apply int_labels_ok in E; subst
         end.
  match goal with
  | E : Fmul100 _ = FNum _ |- _ =>
      apply Fmul100_num in E; destruct E as [q0 [-> ->]]
  end.
  inversion H; subst s'; simpl.
  repeat rewrite <- app_assoc. simpl.
  do 7 eexists. repeat split; eauto.
Qed.

(** After [pre_process] has returned, the object holds a split whose test
    part is not empty and has as many labels as rows: what [train] needs. *)
Lemma pre_process_split_ready (s s' : State) :
  pre_process s = (Ok tt, s') ->
  exists xtr xte ytr yte,
    x_train (self s') = Some (ArrF2 xtr)
    /\ x_test (self s') = Some (ArrF2 xte)
    /\ y_train (self s') = Some ytr
    /\ y_test (self s') = Some yte
    /\ array_len ytr = length xtr
    /\ array_len yte = length xte
    /\ (0 < length xtr)%nat /\ (0 < length xte)%nat.
Proof.
  intros H. unfold pre_process in H. unfold_monad H.
  repeat exec_step H.
  inversion H; subst s'; clear H; simpl.
  match goal with
  | E : train_test_split ?d (ArrF2 ?m) ?lab = Ok _ |- _ =>
      rename E into Hsplit; set (draw := d) in *;
      set (N := array_len (ArrF2 m)) in *;
      assert (HN : N = length m) by reflexivity
  end.
  unfold train_test_split in Hsplit. fold N in Hsplit.
  match type of Hsplit with
  | context [(N =? ?k)%nat] =>
      destruct (Nat.eqb_spec N k) as [Hlen|Hlen];
      simpl in Hsplit; [|discriminate Hsplit]
  end.
  pose proof (split_indices_spec draw N) as Hs.
  destruct (split_indices draw N) as [[train test]|e];
    [|discriminate Hsplit].
  inversion Hsplit; subst; clear Hsplit.
  destruct Hs as [Happ [Htest [Hsum Hpos]]].
  pose proof (permutation_perm draw N) as Hperm.
  rewrite <- Happ in Hperm.
  assert (Hrange : Forall (fun i => (i < N)%nat) (test ++ train)).
  { apply Forall_forall. intros i Hi.
    apply (Permutation_in _ Hperm) in Hi. unfold row_numbers in Hi.
    apply in_seq in Hi. lia. }
  apply Forall_app in Hrange. destruct Hrange as [Hrt Hrn].
  pose proof (n_test_bounds N) as Hb.
  do 4 eexists.
  split; [reflexivity|]. split; [reflexivity|].
  split; [reflexivity|]. split; [reflexivity|].
  rewrite !take_rows_length by (rewrite <- Hlen; assumption).
  rewrite HN in Hrt, Hrn. rewrite !take_length by assumption.
  repeat split; lia.
Qed.

Lemma bind_ok {A B : Type} (m : M A) (k : A -> M B) (s s' : State) (b : B) :
  bind m k s = (Ok b, s') ->
  exists a s1, m s = (Ok a, s1) /\ k a s1 = (Ok b, s').
Proof.
  unfold bind. destruct (m s) as [[a|e] s1]; intros H; [|discriminate].
  now exists a, s1.
Qed.

Lemma count_matches_le (y_true y_pred : list Z) :
  (count_matches y_true y_pred <= length y_true)%nat.
Proof.
  revert y_pred. induction y_true as [|a t IH]; intros [|b p]; simpl; try lia.
  specialize (IH p). destruct (Z.eqb a b); lia.
Qed.

(** The accuracy is the fraction of agreeing positions; it exists exactly
    for a non-empty vector and lies between 0 and 1. *)
Lemma accuracy_score_num (y_true y_pred : list Z) (q : Q) :
  accuracy_score y_true y_pred = Ok (FNum q) ->
  y_true <> [] /\ length y_true = length y_pred
  /\ q = (inject_Z (Z.of_nat (count_matches y_true y_pred))
          / inject_Z (Z.of_nat (length y_true)))%Q
  /\ (0 <= q <= 1)%Q.
Proof.
  unfold accuracy_score.
  destruct (Nat.eqb_spec (length y_true) (length y_pred)) as [Hlen|Hlen];
    simpl; [|discriminate].
  destruct y_true as [|a t] eqn:Ey; [discriminate|]. rewrite <- Ey in *.
  intros H. inversion H; subst q; clear H.
  split; [congruence|]. split; [exact Hlen|]. split; [reflexivity|].
  pose proof (count_matches_le y_true y_pred) as Hle.
  assert (Hpos : (0 < length y_true)%nat) by (rewrite Ey; simpl; lia).
  set (k := count_matches y_true y_pred) in *.
  set (n := length y_true) in *.
  assert (Hn : (0 < inject_Z (Z.of_nat n))%Q).
  { unfold Qlt. cbn [Qnum Qden inject_Z]. lia. }
  split.
  - apply Qle_shift_div_l; [exact Hn|].
    unfold Qle. cbn [Qnum Qden Qmult inject_Z]. lia.
  - apply Qle_shift_div_r; [exact Hn|].
    unfold Qle. cbn [Qnum Qden Qmult inject_Z]. lia.
Qed.

(** What one pass of the loop did when it returned. *)
Lemma run_once_ok (run : nat) (s s' : State) (row : list Float) :
  run_once run s = (Ok row, s') ->
  exists q cm b,
    row = [FNum (inject_Z (Z.of_nat run)); FNum q;
           FNum (time_at (S (ticks s)) - time_at (ticks s))]
    /\ accuracy (self s') = Some (FNum q)
    /\ (0 <= q <= 100)%Q
    /\ files s' = files s
    /\ ticks s' = S (S (ticks s))
    /\ trace s'
       = trace s
         ++ run_events (accuracy_line q) (fst (xgb_evals_result b))
                       (snd (xgb_evals_result b)) cm.
Proof.
  intros H. unfold run_once in H.
  apply bind_ok in H. destruct H as [[] [s1 [Hnew H]]].
  apply bind_ok in H. destruct H as [[] [s2 [Hpre H]]].
  apply bind_ok in H. destruct H as [t0 [s3 [Ht0 H]]].
  apply bind_ok in H. destruct H as [[] [s4 [Htrain H]]].
  apply bind_ok in H. destruct H as [t1 [s5 [Ht1 H]]].
  apply bind_ok in H. destruct H as [acc [s6 [Hacc H]]].
  pose proof (Model_new_spec s) as Hn.
  destruct (lookup_file input_path (files s)) as [[df| |lines]|];
    destruct Hn as [sn [Hn1 Hn2]]; rewrite Hn1 in Hnew;
    try discriminate.
  inversion Hnew; subst sn; clear Hnew.
  destruct Hn2 as [_ [Hf1 [Hk1 [_ Htr1]]]].
  apply pre_process_ok in Hpre. destruct Hpre as [Hf2 [Hk2 Htr2]].
  unfold time in Ht0. inversion Ht0; subst t0 s3; clear Ht0.
  apply train_ok in Htrain.
  destruct Htrain as (xtr & ytr & xte & yte & b & q & cm & _ & _ & _ & _ & _
                      & Hscore & _ & _ & _ & Hacc4 & Hf4 & Hk4 & _ & Htr4).
  simpl in Hf4, Hk4, Htr4.
  unfold time in Ht1. inversion Ht1; subst t1 s5; clear Ht1.
  unfold getattr in Hacc. simpl in Hacc. rewrite Hacc4 in Hacc.
  inversion Hacc; subst acc s6; clear Hacc.
  unfold ret in H. inversion H; subst row s'; clear H. simpl.
  apply accuracy_score_num in Hscore. destruct Hscore as [_ [_ [_ Hq]]].
  exists (q * 100)%Q, cm, b.
  rewrite Hk4, Hk2, Hk1, Hf4, Hf2, Hf1, Htr4, Htr2, Htr1.
  repeat rewrite <- app_assoc. simpl.
  repeat split; try reflexivity; try assumption; lra.
Qed.

End Execution.

(** ** The text of the results file *)

Section Formatting.












End Formatting.

(** ** The driver *)

Section Driver.

Context {clf : Classifier} {env : Environment}.

Lemma run_once_outcome (run : nat) (s s' : State) (row : list Float) :
  run_once run s = (Ok row, s') ->
  files s' = files s
  /\ is_record run row
  /\ exists t, trace s' = trace s ++ t /\ is_run_trace t.
Proof.
  intros H. apply run_once_ok in H.
  destruct H as (q & cm & b & -> & _ & Hq & Hf & _ & Ht).
  split; [exact Hf|]. split.
  - now exists q, (ticks s).
  - eexists. split; [exact Ht|]. now do 4 eexists.
Qed.

(** What the loop did when it ran to its end: one trace and one record per
    run, in the order of the runs. *)
Lemma run_loop_ok (runs : list nat) :
  forall (acc res : list (list Float)) (s s' : State),
    run_loop runs acc s = (Ok res, s') ->
    files s' = files s
    /\ exists (ts : list (list Event)) (rows : list (list Float)),
         trace s' = trace s ++ concat ts
         /\ res = acc ++ rows
         /\ length ts = length runs
         /\ Forall is_run_trace ts
         /\ Forall2 is_record runs rows.
Proof.
  induction runs as [|run runs IH]; intros acc res s s' H; simpl in H.
  - unfold ret in H. inversion H; subst.
    split; [reflexivity|]. exists [], []. simpl.
    rewrite !app_nil_r. repeat split; constructor.
  - apply bind_ok in H. destruct H as [row [s1 [Hrun H]]].
    apply run_once_outcome in Hrun.
    destruct Hrun as [Hf1 [Hrec [t [Ht Hrt]]]].
    apply IH in H. destruct H as [Hf [ts [rows [Htr [-> [Hl [Hts Hrows]]]]]]].
    split; [congruence|]. exists (t :: ts), (row :: rows). simpl.
    rewrite Htr, Ht, <- !app_assoc. simpl.
    repeat split; try reflexivity.
    + now rewrite Hl.
    + now constructor.
    + now constructor.
Qed.

Lemma count_events_app (p : Event -> bool) (t1 t2 : list Event) :
  count_events p (t1 ++ t2) = (count_events p t1 + count_events p t2)%nat.
Proof. unfold count_events. now rewrite filter_app, length_app. Qed.

Lemma count_run_traces (p : Event -> bool) (c : nat) (ts : list (list Event)) :
  (forall line tr te cm, count_events p (run_events line tr te cm) = c) ->
  Forall is_run_trace ts ->
  count_events p (concat ts) = (c * length ts)%nat.
Proof.
  intros Hc. induction 1 as [|t ts Ht _ IH].
  - unfold count_events. simpl. lia.
  - change (concat (t :: ts)) with (t ++ concat ts).
    rewrite count_events_app, IH.
    destruct Ht as [line [tr [te [cm ->]]]]. rewrite Hc.
    cbn [length]. lia.
Qed.

(** What the script did when it ran to its end. *)
Lemma main_ok (num_runs : nat) (s s' : State) :
  main num_runs s = (Ok tt, s') ->
  exists (ts : list (list Event)) (rows : list (list Float)),
    trace s'
    = trace s ++ concat ts
      ++ [EvWrite output_path (savetxt_lines "," rows)]
    /\ files s' = (output_path, FLines (savetxt_lines "," rows)) :: files s
    /\ length ts = num_runs
    /\ Forall is_run_trace ts
    /\ Forall2 is_record (seq 0 num_runs) rows.
Proof.
  intros H. unfold main in H.
  apply bind_ok in H. destruct H as [res [s1 [Hloop H]]].
  apply run_loop_ok in Hloop.
  destruct Hloop as [Hf [ts [rows [Htr [-> [Hl [Hts Hrows]]]]]]].
  unfold savetxt in H. inversion H; subst s'; clear H. simpl.
  exists ts, rows. rewrite Htr, Hf, <- app_assoc.
  rewrite length_seq in Hl. repeat split; assumption.
Qed.

(** C2, amended: in an execution of [num_runs] runs that runs to its end,
    the table is read from the file once in every run, that is [num_runs]
    times, as often as the features are scaled, the rows split and a model
    fitted; the results are written once, by the last thing the process
    does. *)
Theorem table_loaded_once_per_run (num_runs : nat) (s s' : State) :
  main num_runs s = (Ok tt, s') ->
  exists (t : list Event) (lines : list string),
    trace s' = trace s ++ t ++ [EvWrite output_path lines]
    /\ count_events is_read t = num_runs
    /\ count_events is_scale t = num_runs
    /\ count_events is_split t = num_runs
    /\ count_events is_fit t = num_runs
    /\ count_events is_write t = 0%nat.
Proof.
  intros H. apply main_ok in H.
  destruct H as [ts [rows [Htr [_ [Hl [Hts _]]]]]].
  exists (concat ts), (savetxt_lines "," rows).
  split; [exact Htr|].
  rewrite (count_run_traces is_read 1 ts), (count_run_traces is_scale 1 ts),
    (count_run_traces is_split 1 ts), (count_run_traces is_fit 1 ts),
    (count_run_traces is_write 0 ts); try assumption; try reflexivity.
  rewrite Hl. repeat split; lia.
Qed.


Lemma bind_raise {A B : Type} (m : M A) (k : A -> M B) (s s' : State)
  (e : Exn) :
  m s = (Raise e, s') -> bind m k s = (Raise e, s').
Proof. intros H. unfold bind. now rewrite H. Qed.

Lemma stdout_app (t1 t2 : list Event) :
  stdout (t1 ++ t2) = stdout t1 ++ stdout t2.
Proof. unfold stdout. apply flat_map_app. Qed.

(** C1: when at least one run is asked for and the input path holds no
    table (no file, or a file that does not parse), the script prints the
    missing-file message and stops with [SystemExit(1)]: exit status 1,
    nothing else done, no file created or changed.  When the script runs to
    its end the exit status is 0 and the results file exists. *)
Theorem missing_input_is_fatal (num_runs : nat) (s : State) :
  ((0 < num_runs)%nat ->
   (forall df, lookup_file input_path (files s) <> Some (FTable df)) ->
   exists s',
     main num_runs s = (Raise (SystemExit 1), s')
     /\ exit_code (fst (main num_runs s)) = 1%Z
     /\ trace s' = trace s ++ [EvPrint missing_message]
     /\ stdout (trace s') = stdout (trace s) ++ [missing_message]
     /\ files s' = files s
     /\ count_events is_write (trace s') = count_events is_write (trace s))
  /\ (forall s', main num_runs s = (Ok tt, s') ->
        exit_code (fst (main num_runs s)) = 0%Z
        /\ exists lines,
             lookup_file output_path (files s') = Some (FLines lines)).
Proof.
  split.
  - intros Hpos Hno. destruct num_runs as [|n]; [lia|].
    pose proof (Model_new_spec s) as Hn.
    assert (Hr : exists s', Model_new s = (Raise (SystemExit 1), s')
                            /\ files s' = files s
                            /\ trace s' = trace s ++ [EvPrint missing_message]).
    { destruct (lookup_file input_path (files s)) as [[df| |lines]|];
        try exact Hn. exfalso. now apply (Hno df). }
    destruct Hr as [s' [Hnew [Hf Ht]]]. exists s'.
    assert (Hmain : main (S n) s = (Raise (SystemExit 1), s')).
    { unfold main. apply bind_raise. cbn [seq run_loop].
      apply bind_raise. unfold run_once. now apply bind_raise. }
    rewrite Hmain. repeat split; try assumption; try reflexivity.
    + rewrite Ht, stdout_app. reflexivity.
    + rewrite Ht, count_events_app. unfold count_events at 2. simpl. lia.
  - intros s' H. rewrite H. split; [reflexivity|].
    apply main_ok in H. destruct H as [ts [rows [_ [Hf _]]]].
    exists (savetxt_lines "," rows). rewrite Hf. reflexivity.
Qed.







End Driver.

(** ** Concrete runs *)

Section Runs.

(** C2 as stated fails: an execution of two runs that runs to its end has
    read the table from the file twice, not once. *)
Lemma two_runs_load_twice :
  exists s', main (env := Demo.steady) 2 Demo.loaded = (Ok tt, s')
             /\ count_events is_read (trace s') = 2%nat
             /\ count_events is_read (trace s') <> 1%nat.
Proof.
  exists (snd (main (env := Demo.steady) 2 Demo.loaded)).
  split; [vm_compute; reflexivity|].
  split; [vm_compute; reflexivity | vm_compute; discriminate].
Qed.

Lemma table_loaded_witness :
  let s' := snd (main (env := Demo.steady) 3 Demo.loaded) in
  main (env := Demo.steady) 3 Demo.loaded = (Ok tt, s')
  /\ exists t lines,
       trace s' = trace Demo.loaded ++ t ++ [EvWrite output_path lines]
       /\ count_events is_read t = 3%nat
       /\ count_events is_fit t = 3%nat.
Proof.
  intros s'.
  assert (H : main (env := Demo.steady) 3 Demo.loaded = (Ok tt, s'))
    by (vm_compute; reflexivity).
  split; [exact H|].
  destruct (table_loaded_once_per_run 3 _ _ H)
    as [t [lines [Ht [Hr [_ [_ [Hf _]]]]]]].
  exists t, lines. repeat split; assumption.
Defined.


Lemma missing_input_witness :
  (0 < 2)%nat
  /\ (forall df, lookup_file input_path (files Demo.absent) <> Some (FTable df))
  /\ exit_code (fst (main (env := Demo.steady) 2 Demo.absent)) = 1%Z
  /\ exit_code (fst (main (env := Demo.steady) 2 Demo.loaded)) = 0%Z.
Proof.
  assert (H1 : (0 < 2)%nat) by lia.
  assert (H2 : forall df,
             lookup_file input_path (files Demo.absent) <> Some (FTable df))
    by (intros df; discriminate).
  destruct (missing_input_is_fatal (env := Demo.steady) 2 Demo.absent)
    as [Ha _].
  destruct (Ha H1 H2) as [s' [_ [He _]]].
  destruct (missing_input_is_fatal (env := Demo.steady) 2 Demo.loaded)
    as [_ Hb].
  assert (Hm : main (env := Demo.steady) 2 Demo.loaded
               = (Ok tt, snd (main (env := Demo.steady) 2 Demo.loaded)))
    by (vm_compute; reflexivity).
  destruct (Hb _ Hm) as [Hc _].
  repeat split; assumption.
Defined.



End Runs.

(** * Further properties of the methods and of the driver *)

(** ** Tables that [pre_process] accepts *)

Section Tables.


Lemma all_some_Forall2 {A : Type} (l : list (option A)) :
  forall l', all_some l = Some l' -> Forall2 (fun o a => o = Some a) l l'.
Proof.
  induction l as [|[a|] l IH]; simpl; intros l' H; try discriminate.
  - inversion H. constructor.
  - destruct (all_some l) as [t|]; simpl in H; [|discriminate].
    inversion H; subst. constructor; [reflexivity|]. now apply IH.
Qed.



(** Conversion to floats keeps the shape: as many rows, each as long. *)
Lemma as_float_matrix_shape (m : list (list Cell)) (fm : list (list Q)) :
  as_float_matrix m = Some fm ->
  Forall2 (fun r fr => length fr = length r) m fm.
Proof.
  unfold as_float_matrix. intros H. apply all_some_Forall2 in H.
  remember (map (fun r => all_some (map as_float r)) m) as om eqn:E.
  revert m E. induction H as [|o fr om fm Ho _ IH]; intros [|r m] E;
    try discriminate; constructor.
  - simpl in E. injection E as Eo Em. rewrite Eo in Ho.
    apply all_some_Forall2 in Ho.
    apply Forall2_length in Ho. now rewrite length_map in Ho.
  - apply IH. simpl in E. now injection E.
Qed.

Lemma raw_features_row_lengths (df : DataFrame) :
  Forall (fun r => length r = length (feature_columns df)) (raw_features df).
Proof.
  rewrite raw_features_rows. fold (feature_columns df).
  apply Forall_forall. intros r Hr. apply in_map_iff in Hr.
  destruct Hr as [i [<- _]]. apply length_map.
Qed.

Lemma check_array_shape (m : list (list Cell)) (fm : list (list Q)) :
  check_array (ArrObj2 m) = Ok fm ->
  Forall2 (fun r fr => length fr = length r) m fm
  /\ fm <> [] /\ (0 < n_features fm)%nat.
Proof.
  simpl. destruct (as_float_matrix m) as [fm0|] eqn:E; [|discriminate].
  apply as_float_matrix_shape in E.
  destruct fm0 as [|[|v r] rest]; intros H; try discriminate.
  inversion H; subst. split; [exact E|]. split; [discriminate|]. simpl. lia.
Qed.

(** What the scaler accepts from a table is rectangular and has one row
    per row of the table. *)
Lemma check_array_features (df : DataFrame) (fm : list (list Q)) :
  check_array (ArrObj2 (raw_features df)) = Ok fm ->
  rectangular fm /\ length fm = df_len df.
Proof.
  intros H. apply check_array_shape in H. destruct H as [Hs [Hne _]].
  pose proof (raw_features_row_lengths df) as Hl.
  split.
  - assert (Hall : Forall (fun fr => length fr = length (feature_columns df)) fm).
    { clear Hne. induction Hs as [|r fr m fm Hr _ IH]; constructor.
      - inversion Hl; subst. congruence.
      - apply IH. now inversion Hl. }
    unfold rectangular. destruct fm as [|fr0 rest]; [constructor|].
    simpl. inversion Hall as [|? ? H0 _]; subst.
    apply Forall_forall. intros fr Hfr. rewrite Forall_forall in Hall.
    rewrite (Hall fr Hfr). symmetry. exact H0.
  - apply Forall2_length in Hs. rewrite <- Hs.
    rewrite raw_features_rows. now rewrite length_map, length_seq.
Qed.

Lemma transform_length (m : list (list Q)) (sc mn : list Q) :
  length (transform m sc mn) = length m.
Proof. unfold transform. apply length_map. Qed.

Lemma fit_transform_ok (a : NDArray) (s : list (list Q)) :
  fit_transform a = Ok s ->
  exists m, check_array a = Ok m /\ s = transform m (scale_ m) (min_ m).
Proof.
  unfold fit_transform. destruct (check_array a) as [m|e]; intros H;
    [|discriminate]. inversion H. now exists m.
Qed.

End Tables.

(** ** [pre_process] on an object *)

Section PreProcess.

Context {clf : Classifier} {env : Environment}.

Ltac innermost X :=
  lazymatch X with
  | context [match ?Y with _ => _ end] => innermost Y
  | _ => X
  end.

Ltac exec_step H :=
  match type of H with
  | context [match ?X with _ => _ end] =>
      let Y := innermost X in
      destruct Y eqn:?; simpl in H; try discriminate H
  end.

Ltac unfold_monad H :=
  unfold bind, ret, getattr, lift, raise, try_except, set_data, set_x, set_y,
    set_split, set_model, set_y_pred, set_accuracy, print, emit, with_self,
    read_csv, time, next_draws, savetxt in H;
  simpl in H.

(** What [pre_process] computed when it returned: everything it assigns
    is a function of the table and of the random draws. *)
Lemma pre_process_inv (s s' : State) :
  pre_process s = (Ok tt, s') ->
  exists d m lab train test,
    data (self s) = Some d
    /\ fit_transform (ArrObj2 (raw_features d)) = Ok m
    /\ raw_labels d = Ok lab
    /\ array_len lab = length m
    /\ split_indices (fun i => rand_at (draws s + i)) (length m)
       = Ok (train, test)
    /\ data (self s') = Some d
    /\ x (self s') = Some (ArrF2 m)
    /\ y (self s') = Some lab
    /\ x_train (self s') = Some (ArrF2 (take m train))
    /\ x_test (self s') = Some (ArrF2 (take m test))
    /\ y_train (self s') = Some (take_rows lab train)
    /\ y_test (self s') = Some (take_rows lab test)
    /\ draws s' = (draws s + length m)%nat.
Proof.
  intros H. unfold pre_process in H. unfold_monad H.
  repeat exec_step H.
  inversion H; subst s'; clear H; simpl.
  match goal with
  | E : Some _ = Some _ |- _ => inversion E; subst; clear E
  end.
  match goal with
  | E : train_test_split _ _ _ = Ok _ |- _ =>
      rename E into Hsplit
  end.
  unfold train_test_split in Hsplit. simpl array_len in Hsplit.
  match type of Hsplit with
  | context [(?n =? ?k)%nat] =>
      destruct (Nat.eqb_spec n k) as [Hlen|Hlen];
      simpl in Hsplit; [|discriminate Hsplit]
  end.
  match type of Hsplit with
  | context [split_indices ?d ?n] =>
      destruct (split_indices d n) as [[train test]|e] eqn:Hs;
      [|discriminate Hsplit]
  end.
  inversion Hsplit; subst; clear Hsplit.
  do 5 eexists. repeat split; try eassumption; try reflexivity.
  now symmetry.
Qed.

Lemma raw_labels_missing (df : DataFrame) :
  ~ In label_column (columns df) ->
  raw_labels df = Raise (KeyError label_column).
Proof.
  intros Hn. unfold raw_labels, loc_label_values.
  now rewrite (filter_absent label_column (df_cols df) Hn).
Qed.

(** X1: on a table without a [status] column [pre_process] raises
    [KeyError('status')] at line 60; by then line 57 has assigned the raw
    feature matrix to [x], and nothing else has happened: no label vector,
    no split, no random draw, no effect outside. *)
Theorem pre_process_without_status (s : State) (df : DataFrame) :
  data (self s) = Some df ->
  ~ In label_column (columns df) ->
  exists s',
    pre_process s = (Raise (KeyError label_column), s')
    /\ x (self s') = Some (ArrObj2 (raw_features df))
    /\ y (self s') = y (self s)
    /\ x_train (self s') = x_train (self s)
    /\ x_test (self s') = x_test (self s)
    /\ y_train (self s') = y_train (self s)
    /\ y_test (self s') = y_test (self s)
    /\ data (self s') = Some df
    /\ trace s' = trace s /\ files s' = files s /\ draws s' = draws s.
Proof.
  intros Hd Hn. eexists. split.
  - unfold pre_process, bind, getattr, lift, set_x, with_self.
    rewrite Hd. simpl. rewrite Hd. rewrite (raw_labels_missing df Hn).
    reflexivity.
  - simpl. repeat split; try reflexivity; try exact Hd.
Qed.








(** X4: calling [pre_process] a second time does not scale the features
    twice: [x] and [y] are rebuilt from the table, so they are what the
    first call left; only the split is drawn anew, from later draws. *)
Theorem pre_process_twice (s s1 s2 : State) :
  pre_process s = (Ok tt, s1) ->
  pre_process s1 = (Ok tt, s2) ->
  x (self s2) = x (self s1)
  /\ y (self s2) = y (self s1)
  /\ data (self s2) = data (self s)
  /\ exists n, draws s1 = (draws s + n)%nat
               /\ draws s2 = (draws s1 + n)%nat.
Proof.
  intros H1 H2. apply pre_process_inv in H1. apply pre_process_inv in H2.
  destruct H1 as (d & m & lab & tr & te & Hd & Hfit & Hlab & _ & _ & Hd1
                  & Hx1 & Hy1 & _ & _ & _ & _ & Hdr1).
  destruct H2 as (d' & m' & lab' & tr' & te' & Hd' & Hfit' & Hlab' & _ & _
                  & Hd2 & Hx2 & Hy2 & _ & _ & _ & _ & Hdr2).
  rewrite Hd1 in Hd'. inversion Hd'; subst d'.
  rewrite Hfit in Hfit'. inversion Hfit'; subst m'.
  rewrite Hlab in Hlab'. inversion Hlab'; subst lab'.
  repeat split; try congruence.
  exists (length m). split; assumption.
Qed.

End PreProcess.

(** ** [train] on an object *)

Section Train.

Context {clf : Classifier}.

(** X8: the constructor alone does not prepare an object for [train]:
    called right after it, [train] raises [AttributeError] on [x_train] and
    does nothing else. *)
Theorem train_before_pre_process (s : State) (df : DataFrame) :
  lookup_file input_path (files s) = Some (FTable df) ->
  exists s1,
    Model_new s = (Ok tt, s1)
    /\ data (self s1) = Some df
    /\ train s1 = (Raise (AttributeError "x_train"), s1).
Proof.
  intros Hf. eexists. split; [|split].
  - unfold Model_new, Model_init, bind, try_except, read_csv, with_self,
      set_data. simpl. rewrite Hf. reflexivity.
  - reflexivity.
  - reflexivity.
Qed.







End Train.

(** ** The scaler keeps shape and order *)

Section ScalingOrder.

Local Open Scope Q_scope.





End ScalingOrder.

(** ** The driver: failures, files and the clock *)

Section DriverFrame.

Context {clf : Classifier} {env : Environment}.

Ltac innermost X :=
  lazymatch X with
  | context [match ?Y with _ => _ end] => innermost Y
  | _ => X
  end.

Ltac exec_step H :=
  match type of H with
  | context [match ?X with _ => _ end] =>
      let Y := innermost X in
      destruct Y eqn:?; simpl in H; try discriminate H
  end.

Ltac unfold_monad H :=
  unfold bind, ret, getattr, lift, raise, try_except, set_data, set_x, set_y,
    set_split, set_model, set_y_pred, set_accuracy, print, emit, with_self,
    read_csv, time, next_draws, savetxt in H;
  simpl in H.

Lemma quiet_refl (s : State) : quiet s s.
Proof. split; reflexivity. Qed.

Lemma quiet_trans (s1 s2 s3 : State) :
  quiet s1 s2 -> quiet s2 s3 -> quiet s1 s3.
Proof. intros [H1 H2] [H3 H4]. split; congruence. Qed.

Lemma quiet_bind {A B : Type} (m : M A) (k : A -> M B) :
  preserves quiet m -> (forall a, preserves quiet (k a)) ->
  preserves quiet (bind m k).
Proof.
  intros Hm Hk s. unfold bind. specialize (Hm s).
  destruct (m s) as [[a|e] s1]; simpl in *; [|exact Hm].
  eapply quiet_trans; [exact Hm | apply Hk].
Qed.

Lemma quiet_try {A : Type} (body handler : M A) :
  preserves quiet body -> preserves quiet handler ->
  preserves quiet (try_except body handler).
Proof.
  intros Hb Hh s. unfold try_except. specialize (Hb s).
  destruct (body s) as [[a|e] s1]; simpl in *; [exact Hb|].
  eapply quiet_trans; [exact Hb | apply Hh].
Qed.

Lemma quiet_emit (ev : Event) :
  is_write ev = false -> preserves quiet (emit ev).
Proof.
  intros Hw s. split; [reflexivity|]. simpl.
  rewrite count_events_app. unfold count_events at 2. simpl.
  rewrite Hw. simpl. lia.
Qed.

Lemma quiet_pure {A : Type} (m : M A) :
  (forall s, files (snd (m s)) = files s /\ trace (snd (m s)) = trace s) ->
  preserves quiet m.
Proof. intros H s. destruct (H s) as [Hf Ht]. split; congruence. Qed.

Lemma quiet_getattr {A : Type} (name : string) (field : Model -> option A) :
  preserves quiet (getattr name field).
Proof.
  apply quiet_pure. intros s. unfold getattr.
  destruct (field (self s)); split; reflexivity.
Qed.

Lemma quiet_with_self (f : Model -> Model) : preserves quiet (with_self f).
Proof. apply quiet_pure. intros s. split; reflexivity. Qed.

Lemma quiet_lift {A : Type} (o : Outcome A) : preserves quiet (lift o).
Proof. apply quiet_pure. intros s. split; reflexivity. Qed.

Lemma quiet_raise {A : Type} (e : Exn) : preserves quiet (@raise _ A e).
Proof. apply quiet_pure. intros s. split; reflexivity. Qed.

Lemma quiet_ret {A : Type} (a : A) : preserves quiet (ret a).
Proof. apply quiet_pure. intros s. split; reflexivity. Qed.

Lemma quiet_time : preserves quiet time.
Proof. apply quiet_pure. intros s. split; reflexivity. Qed.

Lemma quiet_next_draws (n : nat) : preserves quiet (next_draws n).
Proof. apply quiet_pure. intros s. split; reflexivity. Qed.

Lemma quiet_read_csv (path : string) : preserves quiet (read_csv path).
Proof.
  intros s. unfold read_csv.
  destruct (lookup_file path (files s)) as [[df| |l]|]; try apply quiet_refl.
  split; [reflexivity|]. simpl.
  rewrite count_events_app. unfold count_events at 2. simpl. lia.
Qed.

Ltac quiet_step :=
  first
    [ apply quiet_bind; [|intros ?]
    | apply quiet_try
    | apply quiet_getattr | apply quiet_with_self | apply quiet_lift
    | apply quiet_raise | apply quiet_ret | apply quiet_time
    | apply quiet_next_draws | apply quiet_read_csv
    | apply quiet_emit; reflexivity
    | match goal with
      | |- preserves _ (let '(_, _) := ?p in _) => destruct p
      | |- preserves _ (match ?v with _ => _ end) => destruct v
      end ].

Lemma Model_new_quiet : preserves quiet Model_new.
Proof.
  unfold Model_new, Model_init, set_data, print. repeat quiet_step.
Qed.

Lemma pre_process_quiet : preserves quiet pre_process.
Proof.
  unfold pre_process, set_x, set_y, set_split. repeat quiet_step.
Qed.

Lemma train_quiet : preserves quiet train.
Proof.
  unfold train, set_model, set_y_pred, set_accuracy, print.
  repeat quiet_step.
Qed.

Lemma run_once_quiet (run : nat) : preserves quiet (run_once run).
Proof.
  unfold run_once.
  apply quiet_bind; [apply Model_new_quiet | intros _].
  apply quiet_bind; [apply pre_process_quiet | intros _].
  apply quiet_bind; [apply quiet_time | intros t0].
  apply quiet_bind; [apply train_quiet | intros _].
  repeat quiet_step.
Qed.

Lemma run_loop_quiet (runs : list nat) :
  forall acc, preserves quiet (run_loop runs acc).
Proof.
  induction runs as [|run runs IH]; intros acc; simpl.
  - apply quiet_ret.
  - apply quiet_bind; [apply run_once_quiet | intros row; apply IH].
Qed.

(** X6: when the script ends with an exception, whatever it is and in
    whichever run it arises, no file has been created or changed and
    nothing has been written: the records of the runs already completed
    are lost. *)
Theorem failure_writes_nothing (num_runs : nat) (s s' : State) (e : Exn) :
  main num_runs s = (Raise e, s') ->
  files s' = files s
  /\ count_events is_write (trace s') = count_events is_write (trace s).
Proof.
  intros H. unfold main, bind in H.
  pose proof (run_loop_quiet (seq 0 num_runs) [] s) as Hq.
  destruct (run_loop (seq 0 num_runs) [] s) as [[res|e0] s1];
    simpl in Hq.
  - unfold savetxt in H. discriminate H.
  - inversion H; subst. exact Hq.
Qed.

Lemma lookup_file_other (path p : string) (d : FileData)
  (fs : list (string * FileData)) :
  path <> p -> lookup_file path ((p, d) :: fs) = lookup_file path fs.
Proof.
  intros Hne. simpl. destruct (String.eqb_spec p path); [congruence|].
  reflexivity.
Qed.

(** X10: whether the script returns or raises, every path other than the
    results file holds what it held before; in particular the input file
    is never changed. *)
Theorem only_results_file_changes (num_runs : nat) (s : State) :
  (forall path, path <> output_path ->
     lookup_file path (files (snd (main num_runs s)))
     = lookup_file path (files s))
  /\ lookup_file input_path (files (snd (main num_runs s)))
     = lookup_file input_path (files s).
Proof.
  assert (H : forall path, path <> output_path ->
                lookup_file path (files (snd (main num_runs s)))
                = lookup_file path (files s)).
  { intros path Hne. unfold main, bind.
    pose proof (run_loop_quiet (seq 0 num_runs) [] s) as [Hf _].
    destruct (run_loop (seq 0 num_runs) [] s) as [[res|e0] s1];
      cbn [snd] in Hf.
    - unfold savetxt. cbn [snd files].
      rewrite lookup_file_other by exact Hne. now rewrite Hf.
    - cbn [snd]. now rewrite Hf. }
  split; [exact H|]. apply H. discriminate.
Qed.

(** X7: with zero runs the script never looks at the input: it returns,
    whatever the files are, having done one thing only, the write of a
    results file without any line. *)
Theorem zero_runs_write_empty_file (s : State) :
  exists s',
    main 0 s = (Ok tt, s')
    /\ trace s' = trace s ++ [EvWrite output_path []]
    /\ lookup_file output_path (files s') = Some (FLines [])
    /\ self s' = self s.
Proof.
  eexists. split; [reflexivity|]. simpl. repeat split; reflexivity.
Qed.

End DriverFrame.

(** ** The driver: small tables and the clock *)

Section DriverRuns.

Context {clf : Classifier} {env : Environment}.

Ltac innermost X :=
  lazymatch X with
  | context [match ?Y with _ => _ end] => innermost Y
  | _ => X
  end.

Ltac exec_step H :=
  match type of H with
  | context [match ?X with _ => _ end] =>
      let Y := innermost X in
      destruct Y eqn:?; simpl in H; try discriminate H
  end.

Ltac unfold_monad H :=
  unfold bind, ret, getattr, lift, raise, try_except, set_data, set_x, set_y,
    set_split, set_model, set_y_pred, set_accuracy, print, emit, with_self,
    read_csv, time, next_draws, savetxt in H;
  simpl in H.

Lemma raw_labels_raise (df : DataFrame) (e : Exn) :
  raw_labels df = Raise e -> is_key_or_value_error e.
Proof.
  unfold raw_labels, loc_label_values.
  destruct (filter _ (df_cols df)) as [|c [|c' cs]]; intros H;
    inversion H; exact I.
Qed.

Lemma check_array_raise (a : NDArray) (e : Exn) :
  check_array a = Raise e -> is_key_or_value_error e.
Proof.
  destruct a as [c|m|m]; simpl.
  - intros H; inversion H; exact I.
  - destruct (as_float_matrix m) as [[|[|v r] rest]|]; intros H;
      inversion H; exact I.
  - destruct m as [|[|v r] rest]; intros H; inversion H; exact I.
Qed.

Lemma fit_transform_raise (a : NDArray) (e : Exn) :
  fit_transform a = Raise e -> is_key_or_value_error e.
Proof.
  unfold fit_transform. destruct (check_array a) as [m|e0] eqn:E;
    intros H; [discriminate|]. inversion H; subst.
  now apply check_array_raise in E.
Qed.

Lemma train_test_split_raise (draw : nat -> nat) (x y : NDArray) (e : Exn) :
  train_test_split draw x y = Raise e -> is_key_or_value_error e.
Proof.
  unfold train_test_split, split_indices, validate_shuffle_split.
  destruct (negb _); [intros H; inversion H; exact I|].
  destruct (_ =? 0)%nat; intros H; inversion H; exact I.
Qed.

(** On an object that holds a table, what [pre_process] raises comes from
    a library call, and it raises before printing anything. *)
Lemma pre_process_raises (s s' : State) (df : DataFrame) (e : Exn) :
  data (self s) = Some df ->
  pre_process s = (Raise e, s') ->
  is_key_or_value_error e /\ stdout (trace s') = stdout (trace s).
Proof.
  intros Hd H. unfold pre_process in H. unfold_monad H.
  rewrite Hd in H. simpl in H.
  repeat exec_step H; try discriminate Hd;
    inversion H; subst; clear H; simpl;
    repeat rewrite stdout_app; simpl; rewrite ?app_nil_r;
    (split; [|reflexivity]);
    first [ eapply raw_labels_raise; eassumption
          | eapply fit_transform_raise; eassumption
          | eapply train_test_split_raise; eassumption ].
Qed.

(** [pre_process] returns only on tables of at least two rows. *)
Lemma pre_process_needs_two_rows (s s' : State) (df : DataFrame) :
  data (self s) = Some df ->
  pre_process s = (Ok tt, s') ->
  (2 <= df_len df)%nat.
Proof.
  intros Hd H. apply pre_process_inv in H.
  destruct H as (d & m & lab & train & test & Hd' & Hfit & _ & _ & Hsp & _).
  rewrite Hd in Hd'. inversion Hd'; subst d.
  apply fit_transform_ok in Hfit. destruct Hfit as [m0 [Hcheck ->]].
  apply check_array_features in Hcheck. destruct Hcheck as [_ Hlen].
  rewrite transform_length, Hlen in Hsp.
  pose proof (split_indices_spec
                (fun i => rand_at (draws s + i)) (df_len df)) as Hs.
  rewrite Hsp in Hs. destruct Hs as [_ [Htest [Hsum Hpos]]].
  pose proof (n_test_bounds (df_len df)) as Hb. lia.
Qed.

(** X5: a table of fewer than two rows cannot be processed: with at least
    one run asked for, the script ends in the first run with a [KeyError]
    or a [ValueError] raised from [pre_process], hence with exit status 1,
    without having printed anything and without touching any file. *)
Theorem small_table_fails (num_runs : nat) (s : State) (df : DataFrame) :
  (0 < num_runs)%nat ->
  lookup_file input_path (files s) = Some (FTable df) ->
  (df_len df < 2)%nat ->
  exists e s',
    main num_runs s = (Raise e, s')
    /\ is_key_or_value_error e
    /\ exit_code (fst (main num_runs s)) = 1%Z
    /\ stdout (trace s') = stdout (trace s)
    /\ files s' = files s.
Proof.
  intros Hpos Hf Hsmall. destruct num_runs as [|n]; [lia|].
  pose proof (Model_new_spec s) as Hn. rewrite Hf in Hn.
  destruct Hn as [s1 [Hnew [Hd [Hf1 [_ [_ Ht1]]]]]].
  destruct (pre_process s1) as [[[]|e] s2] eqn:Hpre.
  - pose proof (pre_process_needs_two_rows s1 s2 df Hd Hpre). lia.
  - pose proof (pre_process_raises s1 s2 df e Hd Hpre) as [Hk Hout].
    pose proof (pre_process_untouched s1) as [_ Hf2].
    rewrite Hpre in Hf2. simpl in Hf2.
    assert (Hmain : main (S n) s = (Raise e, s2)).
    { unfold main. apply bind_raise. cbn [seq run_loop].
      apply bind_raise. unfold run_once.
      unfold bind at 1. rewrite Hnew.
      now apply bind_raise. }
    exists e, s2. rewrite Hmain. split; [reflexivity|].
    split; [exact Hk|]. split.
    { destruct e; simpl in Hk; try contradiction; reflexivity. }
    split.
    + rewrite Hout, Ht1, stdout_app. simpl. apply app_nil_r.
    + congruence.
Qed.



End DriverRuns.

(** ** Further concrete runs *)

Section MoreRuns.

Lemma pre_process_without_status_witness :
  let s := Cases.holding Cases.unlabelled in
  data (self s) = Some Cases.unlabelled
  /\ ~ In label_column (columns Cases.unlabelled)
  /\ exists s',
       pre_process (env := Demo.steady) s = (Raise (KeyError label_column), s')
       /\ x (self s') = Some (ArrObj2 (raw_features Cases.unlabelled))
       /\ trace s' = [].
Proof.
  intros s.
  assert (Hn : ~ In label_column (columns Cases.unlabelled)).
  { simpl. intros [H|[H|[]]]; discriminate H. }
  split; [reflexivity|]. split; [exact Hn|].
  destruct (pre_process_without_status (env := Demo.steady)
              s Cases.unlabelled eq_refl Hn)
    as [s' [Hp [Hx [_ [_ [_ [_ [_ [_ [Ht _]]]]]]]]]].
  exists s'. repeat split; assumption.
Defined.



Lemma pre_process_twice_witness :
  let s := Cases.holding Demo.table in
  let s1 := snd (pre_process (env := Demo.steady) s) in
  let s2 := snd (pre_process (env := Demo.steady) s1) in
  pre_process (env := Demo.steady) s = (Ok tt, s1)
  /\ pre_process (env := Demo.steady) s1 = (Ok tt, s2)
  /\ x (self s2) = x (self s1)
  /\ y (self s2) = y (self s1).
Proof.
  intros s s1 s2.
  assert (H1 : pre_process (env := Demo.steady) s = (Ok tt, s1))
    by (vm_compute; reflexivity).
  assert (H2 : pre_process (env := Demo.steady) s1 = (Ok tt, s2))
    by (vm_compute; reflexivity).
  destruct (pre_process_twice s s1 s2 H1 H2) as [Hx [Hy _]].
  split; [exact H1|]. split; [exact H2|]. split; [exact Hx | exact Hy].
Defined.

Lemma small_table_fails_witness :
  let s := Demo.start [(input_path, FTable Cases.single)] in
  (0 < 2)%nat
  /\ lookup_file input_path (files s) = Some (FTable Cases.single)
  /\ (df_len Cases.single < 2)%nat
  /\ exists e s',
       main (env := Demo.steady) 2 s = (Raise e, s')
       /\ is_key_or_value_error e
       /\ exit_code (fst (main (env := Demo.steady) 2 s)) = 1%Z.
Proof.
  intros s.
  assert (H1 : (0 < 2)%nat) by lia.
  assert (H3 : (df_len Cases.single < 2)%nat) by (simpl; lia).
  split; [exact H1|]. split; [reflexivity|]. split; [exact H3|].
  destruct (small_table_fails (env := Demo.steady) 2 s Cases.single
              H1 eq_refl H3) as [e [s' [Hm [Hk [Hx _]]]]].
  exists e, s'. repeat split; assumption.
Defined.

Lemma failure_writes_nothing_witness :
  let r := main (env := Demo.steady) 2 Demo.absent in
  r = (Raise (SystemExit 1), snd r)
  /\ files (snd r) = files Demo.absent
  /\ count_events is_write (trace (snd r)) = 0%nat.
Proof.
  intros r.
  assert (H : r = (Raise (SystemExit 1), snd r)) by (vm_compute; reflexivity).
  split; [exact H|].
  exact (failure_writes_nothing (env := Demo.steady) 2 Demo.absent (snd r)
           (SystemExit 1) H).
Defined.

Lemma train_before_pre_process_witness :
  lookup_file input_path (files Demo.loaded) = Some (FTable Demo.table)
  /\ exists s1,
       Model_new Demo.loaded = (Ok tt, s1)
       /\ train s1 = (Raise (AttributeError "x_train"), s1).
Proof.
  split; [reflexivity|].
  destruct (train_before_pre_process Demo.loaded Demo.table eq_refl)
    as [s1 [Hn [_ Ht]]].
  exists s1. split; assumption.
Defined.




Lemma only_results_file_changes_witness :
  input_path <> output_path
  /\ lookup_file input_path
       (files (snd (main (env := Demo.steady) 2 Demo.loaded)))
     = Some (FTable Demo.table).
Proof.
  assert (Hne : input_path <> output_path) by discriminate.
  split; [exact Hne|].
  rewrite (proj1 (only_results_file_changes (env := Demo.steady)
                    2 Demo.loaded) input_path Hne).
  reflexivity.
Defined.

End MoreRuns.

(** ** Runs are independent, rows keep their labels *)

Section Independence.

Context {clf : Classifier} {env : Environment}.

Lemma Model_new_fresh (s t : State) :
  same_outside s t -> Model_new s = Model_new t.
Proof.
  intros (Hf & Hk & Hd & Ht).
  unfold Model_new, bind, with_self. simpl.
  unfold Model_init, try_except, bind, read_csv, set_data, with_self, print,
    emit, raise. simpl.
  rewrite Hf, Hk, Hd, Ht. reflexivity.
Qed.

(** X14: every run starts from a new object: what a run does, returns and
    leaves behind is the same whatever the object an earlier run left, as
    long as the files, the clock, the random draws and the trace are the
    same. *)
Theorem run_starts_afresh (run : nat) (s t : State) :
  same_outside s t -> run_once run s = run_once run t.
Proof.
  intros H. unfold run_once. unfold bind at 1 3.
  now rewrite (Model_new_fresh s t H).
Qed.

Lemma nth_error_combine {A B : Type} (a : list A) (b : list B) (i : nat) :
  nth_error (combine a b) i
  = match nth_error a i, nth_error b i with
    | Some u, Some v => Some (u, v)
    | _, _ => None
    end.
Proof.
  revert b i. induction a as [|u a IH]; intros [|v b] [|i]; simpl;
    try reflexivity.
  - now destruct (nth_error a i).
  - apply IH.
Qed.

(** Indexing two aligned vectors by the same positions keeps them
    aligned. *)
Lemma take_combine {A B : Type} (a : list A) (b : list B) (idx : list nat) :
  length a = length b ->
  take (combine a b) idx = combine (take a idx) (take b idx).
Proof.
  intros Hlen. unfold take. induction idx as [|i idx IH]; simpl; [reflexivity|].
  rewrite nth_error_combine, IH.
  destruct (nth_error a i) as [u|] eqn:Ea;
    destruct (nth_error b i) as [v|] eqn:Eb; simpl; try reflexivity.
  - apply nth_error_None in Eb.
    assert (i < length a)%nat by (apply nth_error_Some; congruence). lia.
  - apply nth_error_None in Ea.
    assert (i < length b)%nat by (apply nth_error_Some; congruence). lia.
Qed.

(** X15: the split keeps every row together with its label: when
    [pre_process] has returned with an integer label vector, the train and
    test parts of [x] and [y] have matching lengths, and the (row, label)
    pairs of the test part followed by those of the train part are a
    rearrangement of the (row, label) pairs of the whole data. *)
Theorem split_keeps_rows_with_labels (s s' : State) (ys : list Z) :
  pre_process s = (Ok tt, s') ->
  y (self s') = Some (Arr1 (ColInt ys)) ->
  exists xs xtr xte ytr yte,
    x (self s') = Some (ArrF2 xs)
    /\ x_train (self s') = Some (ArrF2 xtr)
    /\ x_test (self s') = Some (ArrF2 xte)
    /\ y_train (self s') = Some (Arr1 (ColInt ytr))
    /\ y_test (self s') = Some (Arr1 (ColInt yte))
    /\ length xs = length ys
    /\ length xtr = length ytr /\ length xte = length yte
    /\ Permutation (combine xte yte ++ combine xtr ytr) (combine xs ys).
Proof.
  intros H Hy. apply pre_process_inv in H.
  destruct H as (d & m & lab & train & test & _ & _ & _ & Hlen & Hsp & _
                 & Hx & Hy' & Hxtr & Hxte & Hytr & Hyte & _).
  rewrite Hy in Hy'. inversion Hy'; subst lab; clear Hy'.
  simpl in Hlen, Hytr, Hyte.
  pose proof (split_indices_spec (fun i => rand_at (draws s + i)) (length m))
    as Hs.
  rewrite Hsp in Hs. destruct Hs as [Happ _].
  pose proof (permutation_perm (fun i => rand_at (draws s + i)) (length m))
    as Hperm.
  rewrite <- Happ in Hperm.
  assert (Hrange : Forall (fun i => (i < length m)%nat) (test ++ train)).
  { apply Forall_forall. intros i Hi.
    apply (Permutation_in _ Hperm) in Hi. unfold row_numbers in Hi.
    apply in_seq in Hi. lia. }
  apply Forall_app in Hrange. destruct Hrange as [Hrt Hrn].
  exists m, (take m train), (take m test), (take ys train), (take ys test).
  repeat split; try assumption.
  - now symmetry.
  - rewrite !take_length; [reflexivity| now rewrite Hlen | exact Hrn].
  - rewrite !take_length; [reflexivity| now rewrite Hlen | exact Hrt].
  - rewrite <- !take_combine by now symmetry.
    rewrite <- take_app. apply take_perm.
    rewrite length_combine, Hlen, Nat.min_id. exact Hperm.
Qed.




End Independence.

Section IndependenceRuns.

Lemma split_keeps_rows_with_labels_witness :
  let s := Cases.holding Demo.table in
  let s' := snd (pre_process (env := Demo.steady) s) in
  let ys := Demo.labels_of (y (self s')) in
  pre_process (env := Demo.steady) s = (Ok tt, s')
  /\ y (self s') = Some (Arr1 (ColInt ys))
  /\ exists xs xtr xte ytr yte,
       x_train (self s') = Some (ArrF2 xtr)
       /\ y_train (self s') = Some (Arr1 (ColInt ytr))
       /\ Permutation (combine xte yte ++ combine xtr ytr) (combine xs ys).
Proof.
  intros s s' ys.
  assert (H : pre_process (env := Demo.steady) s = (Ok tt, s'))
    by (vm_compute; reflexivity).
  assert (Hy : y (self s') = Some (Arr1 (ColInt ys)))
    by (vm_compute; reflexivity).
  split; [exact H|]. split; [exact Hy|].
  destruct (split_keeps_rows_with_labels s s' ys H Hy)
    as (xs & xtr & xte & ytr & yte & _ & Hxtr & _ & Hytr & _ & _ & _ & _ & Hp).
  exists xs, xtr, xte, ytr, yte.
  split; [exact Hxtr|]. split; [exact Hytr | exact Hp].
Defined.


Lemma run_starts_afresh_witness :
  same_outside Demo.loaded
    {| self := self Demo.prepared; files := files Demo.loaded;
       ticks := 0; draws := 0; trace := [] |}
  /\ run_once (env := Demo.steady) 0 Demo.loaded
     = run_once (env := Demo.steady) 0
         {| self := self Demo.prepared; files := files Demo.loaded;
            ticks := 0; draws := 0; trace := [] |}.
Proof.
  assert (H : same_outside Demo.loaded
                {| self := self Demo.prepared; files := files Demo.loaded;
                   ticks := 0; draws := 0; trace := [] |}).
  { repeat split. }
  split; [exact H|].
  exact (run_starts_afresh (env := Demo.steady) 0 _ _ H).
Defined.

End IndependenceRuns.
